(** * Kili Python SDK: label queries, label export entry points and export layout

    A shallow embedding of
    - [kili/entrypoints/queries/label/__init__.py]  ([QueriesLabel]),
    - [kili/cli/project/export.py]                   (the [export] command),
    - [tests/services/export/test_export.py]         ([get_file_tree] and the
      expected archive trees),
    together with a model of the YOLO asset processor and of the archive
    layout of [kili.services.export], which these files call and test. *)

From Stdlib Require Import ZArith List Bool Ascii PrimFloat.
From stdpp Require Import base option list strings gmap fin_maps pretty.

(** ** Python effects: exceptions, [print], and the outside world *)

Module Py.

(** The exceptions the modelled code raises or handles.  [OtherException]
    stands for every class the code neither raises itself nor names in an
    [except] clause (transport errors, validation errors, ...). *)
Inductive exn : Type :=
| NoCompatibleJobError (msg : string)
| NotCompatibleOptions (msg : string)
| KeyError (key : string)
| OtherException (cls msg : string).

(** [str(excp)] *)
Definition str (e : exn) : string :=
  match e with
  | NoCompatibleJobError msg => msg
  | NotCompatibleOptions msg => msg
  | KeyError key => "'" +:+ key +:+ "'"
  | OtherException _ msg => msg
  end.

Inductive result (A : Type) : Type :=
| Return (a : A)
| Raise (e : exn).
Arguments Return {A} a.
Arguments Raise {A} e.

(** The process state: what was printed so far, and the world [W] the
    collaborators act on (remote API, file system). *)
Record state (W : Type) : Type := State { stdout : list string; world : W }.
Arguments State {W} stdout world.
Arguments stdout {W} s.
Arguments world {W} s.

Definition M (W A : Type) : Type := state W -> result A * state W.

Definition ret {W A} (a : A) : M W A := fun s => (Return a, s).

Definition bind {W A B} (m : M W A) (k : A -> M W B) : M W B :=
  fun s =>
    match m s with
    | (Return a, s') => k a s'
    | (Raise e, s') => (Raise e, s')
    end.

Definition raise {W A} (e : exn) : M W A := fun s => (Raise e, s).

(** [print(line)] *)
Definition print {W} (line : string) : M W unit :=
  fun s => (Return tt, State (stdout s ++ [line]) (world s)).

(** [try: body  except <class> as excp: handler excp]; [handler] answers
    [None] on the exceptions its [except] clause does not match, which then
    propagate. The handler runs in the state the body left. *)
Definition try_except {W A} (body : M W A) (handler : exn -> option (M W A)) : M W A :=
  fun s =>
    match body s with
    | (Return a, s') => (Return a, s')
    | (Raise e, s') =>
        match handler e with
        | Some h => h s'
        | None => (Raise e, s')
        end
    end.

(** A generator is a suspended computation; [list(gen)] runs it. *)
Definition generator (W A : Type) : Type := M W (list A).

Definition list_of {W A} (gen : generator W A) : M W (list A) := gen.

(** [if s: body(s)] for [s : Optional[str]]: [None] and the empty string
    are falsy. *)
Definition if_truthy {W} (s : option string) (body : string -> M W unit) : M W unit :=
  match s with
  | None => ret tt
  | Some "" => ret tt
  | Some q => body q
  end.

(** [s.split(sep)] for a separator of one character: the pieces between
    the separators, empty ones included. *)
Fixpoint split (sep : ascii) (s : string) : list string :=
  match s with
  | "" => [""]
  | String c s' =>
      match split sep s' with
      | [] => [""]
      | piece :: pieces =>
          if Ascii.eqb c sep then "" :: piece :: pieces
          else String c piece :: pieces
      end
  end.

End Py.

(** The monad structure, so that stdpp's [x ← c; k] and [c;; k] can be used. *)
Global Instance M_ret {W} : MRet (Py.M W) := fun A => @Py.ret W A.
Global Instance M_bind {W} : MBind (Py.M W) := fun A B k m => Py.bind m k.

(** ** [kili.services.export.types] *)

(** [LabelFormat]: the formats the SDK documents ("Yolo V4, V5, V7", "Kili
    (a.k.a raw)", "COCO", "Pascal VOC"). *)
Inductive LabelFormat : Type :=
| yolo_v4 | yolo_v5 | yolo_v7 | coco | pascal_voc | raw.

(** [SplitOption] *)
Inductive SplitOption : Type := split | merged.

Global Instance LabelFormat_eq_dec : EqDecision LabelFormat.
Proof. solve_decision. Defined.
Global Instance SplitOption_eq_dec : EqDecision SplitOption.
Proof. solve_decision. Defined.

(** ** [kili.core.graphql]: the arguments of a label query

    [LabelWhere] and [QueryOptions] are plain data classes; their fields are
    the keyword arguments [QueriesLabel.labels] builds them from. *)

Module LabelWhere.
Record t : Type := mk {
  project_id : string;
  asset_id : option string;
  asset_status_in : option (list string);
  asset_external_id_in : option (list string);
  author_in : option (list string);
  created_at : option string;
  created_at_gte : option string;
  created_at_lte : option string;
  honeypot_mark_gte : option float;
  honeypot_mark_lte : option float;
  id_contains : option (list string);
  label_id : option string;
  type_in : option (list string);
  user_id : option string;
  category_search : option string;
}.
End LabelWhere.

Module QueryOptions.
(** [QueryOptions(disable_tqdm, first, skip)] *)
Record t : Type := mk {
  disable_tqdm : bool;
  first : option Z;
  skip : Z;
}.
End QueryOptions.

(** The keyword arguments of [QueriesLabel.labels]. *)
Module LabelsArgs.
Record t : Type := mk {
  project_id : string;
  asset_id : option string;
  asset_status_in : option (list string);
  asset_external_id_in : option (list string);
  author_in : option (list string);
  created_at : option string;
  created_at_gte : option string;
  created_at_lte : option string;
  fields : list string;
  first : option Z;
  honeypot_mark_gte : option float;
  honeypot_mark_lte : option float;
  id_contains : option (list string);
  label_id : option string;
  skip : Z;
  type_in : option (list string);
  user_id : option string;
  disable_tqdm : bool;
  category_search : option string;
  as_generator : bool;
}.
End LabelsArgs.

(** The keyword arguments of [QueriesLabel.predictions] and of
    [QueriesLabel.inferences]: those of [labels] without [type_in], and with
    [fields] optional. *)
Module TypedLabelsArgs.
Record t : Type := mk {
  project_id : string;
  asset_id : option string;
  asset_status_in : option (list string);
  asset_external_id_in : option (list string);
  author_in : option (list string);
  created_at : option string;
  created_at_gte : option string;
  created_at_lte : option string;
  fields : option (list string);
  first : option Z;
  honeypot_mark_gte : option float;
  honeypot_mark_lte : option float;
  id_contains : option (list string);
  label_id : option string;
  skip : Z;
  user_id : option string;
  disable_tqdm : bool;
  category_search : option string;
  as_generator : bool;
}.
End TypedLabelsArgs.

(** ** [kili.entrypoints.queries.label]: class [QueriesLabel] *)

Module QueriesLabel.
Section QueriesLabel.

(** [W]: the world outside the process; [Dict]: a label as returned by the
    API; [Client]: [auth.client]; the last two are the types of the
    [annotation_modifier] callback and of the [asset_filter_kwargs]
    dictionary, which are only passed on. *)
Context {W Dict Client CocoAnnotationModifier AssetFilterKwargs : Type}.

(** [KiliAuth]: only its [client] is read here. *)
Record KiliAuth : Type := { client : Client }.

(** The object itself: [self.auth]. *)
Record self_t : Type := { auth : KiliAuth }.

(** What [labels] returns: the generator itself, or the list made of it. *)
Inductive Iterable : Type :=
| a_generator (gen : Py.generator W Dict)
| a_list (l : list Dict).

(** The keyword arguments [QueriesLabel.export_labels] passes to
    [services.export_labels]. *)
Record ExportKwargs : Type := {
  kw_asset_ids : option (list string);
  kw_project_id : string;
  kw_export_type : string;
  kw_label_format : LabelFormat;
  kw_split_option : SplitOption;
  kw_single_file : bool;
  kw_output_file : string;
  kw_disable_tqdm : bool;
  kw_log_level : string;
  kw_with_assets : bool;
  kw_annotation_modifier : option CocoAnnotationModifier;
  kw_asset_filter_kwargs : option AssetFilterKwargs;
}.

(** Collaborators whose code is outside these files. *)
Variable validate_category_search_query : string -> Py.M W unit.
Variable disable_tqdm_if_as_generator : bool -> bool -> Py.M W bool.
Variable LabelQuery :
  Client -> LabelWhere.t -> list string -> QueryOptions.t -> Py.generator W Dict.
Variable infer_ids_from_external_ids :
  KiliAuth -> list string -> string -> Py.M W (gmap string string).
Variable services_export_labels : KiliAuth -> ExportKwargs -> Py.M W unit.

(** The default of [fields] in [labels]. *)
Definition labels_default_fields : list string :=
  ["author.email"; "author.id"; "id"; "jsonResponse"; "labelType"; "secondsToLabel"].

Definition labels (self : self_t) (a : LabelsArgs.t) : Py.M W Iterable :=
  Py.if_truthy (LabelsArgs.category_search a) validate_category_search_query;;
  let where_ := {|
    LabelWhere.project_id := LabelsArgs.project_id a;
    LabelWhere.asset_id := LabelsArgs.asset_id a;
    LabelWhere.asset_status_in := LabelsArgs.asset_status_in a;
    LabelWhere.asset_external_id_in := LabelsArgs.asset_external_id_in a;
    LabelWhere.author_in := LabelsArgs.author_in a;
    LabelWhere.created_at := LabelsArgs.created_at a;
    LabelWhere.created_at_gte := LabelsArgs.created_at_gte a;
    LabelWhere.created_at_lte := LabelsArgs.created_at_lte a;
    LabelWhere.honeypot_mark_gte := LabelsArgs.honeypot_mark_gte a;
    LabelWhere.honeypot_mark_lte := LabelsArgs.honeypot_mark_lte a;
    LabelWhere.id_contains := LabelsArgs.id_contains a;
    LabelWhere.label_id := LabelsArgs.label_id a;
    LabelWhere.type_in := LabelsArgs.type_in a;
    LabelWhere.user_id := LabelsArgs.user_id a;
    LabelWhere.category_search := LabelsArgs.category_search a;
  |} in
  disable_tqdm ← disable_tqdm_if_as_generator
                   (LabelsArgs.as_generator a) (LabelsArgs.disable_tqdm a);
  let options := QueryOptions.mk disable_tqdm (LabelsArgs.first a) (LabelsArgs.skip a) in
  let labels_gen := LabelQuery (client (auth self)) where_ (LabelsArgs.fields a) options in
  if LabelsArgs.as_generator a
  then mret (a_generator labels_gen)
  else l ← Py.list_of labels_gen; mret (a_list l).

Definition predictions (self : self_t) (a : TypedLabelsArgs.t) : Py.M W Iterable :=
  let fields :=
    match TypedLabelsArgs.fields a with
    | None =>
        ["author.email"; "author.id"; "id"; "jsonResponse"; "labelType"; "modelName"]
    | Some fields => fields
    end in
  labels self {|
    LabelsArgs.project_id := TypedLabelsArgs.project_id a;
    LabelsArgs.asset_id := TypedLabelsArgs.asset_id a;
    LabelsArgs.asset_status_in := TypedLabelsArgs.asset_status_in a;
    LabelsArgs.asset_external_id_in := TypedLabelsArgs.asset_external_id_in a;
    LabelsArgs.author_in := TypedLabelsArgs.author_in a;
    LabelsArgs.created_at := TypedLabelsArgs.created_at a;
    LabelsArgs.created_at_gte := TypedLabelsArgs.created_at_gte a;
    LabelsArgs.created_at_lte := TypedLabelsArgs.created_at_lte a;
    LabelsArgs.fields := fields;
    LabelsArgs.first := TypedLabelsArgs.first a;
    LabelsArgs.honeypot_mark_gte := TypedLabelsArgs.honeypot_mark_gte a;
    LabelsArgs.honeypot_mark_lte := TypedLabelsArgs.honeypot_mark_lte a;
    LabelsArgs.id_contains := TypedLabelsArgs.id_contains a;
    LabelsArgs.label_id := TypedLabelsArgs.label_id a;
    LabelsArgs.skip := TypedLabelsArgs.skip a;
    LabelsArgs.type_in := Some ["PREDICTION"];
    LabelsArgs.user_id := TypedLabelsArgs.user_id a;
    LabelsArgs.disable_tqdm := TypedLabelsArgs.disable_tqdm a;
    LabelsArgs.category_search := TypedLabelsArgs.category_search a;
    LabelsArgs.as_generator := TypedLabelsArgs.as_generator a;
  |}.

Definition inferences (self : self_t) (a : TypedLabelsArgs.t) : Py.M W Iterable :=
  let fields :=
    match TypedLabelsArgs.fields a with
    | None =>
        ["author.email"; "author.id"; "id"; "jsonResponse"; "labelType"; "modelName"]
    | Some fields => fields
    end in
  labels self {|
    LabelsArgs.project_id := TypedLabelsArgs.project_id a;
    LabelsArgs.asset_id := TypedLabelsArgs.asset_id a;
    LabelsArgs.asset_status_in := TypedLabelsArgs.asset_status_in a;
    LabelsArgs.asset_external_id_in := TypedLabelsArgs.asset_external_id_in a;
    LabelsArgs.author_in := TypedLabelsArgs.author_in a;
    LabelsArgs.created_at := TypedLabelsArgs.created_at a;
    LabelsArgs.created_at_gte := TypedLabelsArgs.created_at_gte a;
    LabelsArgs.created_at_lte := TypedLabelsArgs.created_at_lte a;
    LabelsArgs.fields := fields;
    LabelsArgs.first := TypedLabelsArgs.first a;
    LabelsArgs.honeypot_mark_gte := TypedLabelsArgs.honeypot_mark_gte a;
    LabelsArgs.honeypot_mark_lte := TypedLabelsArgs.honeypot_mark_lte a;
    LabelsArgs.id_contains := TypedLabelsArgs.id_contains a;
    LabelsArgs.label_id := TypedLabelsArgs.label_id a;
    LabelsArgs.skip := TypedLabelsArgs.skip a;
    LabelsArgs.type_in := Some ["INFERENCE"];
    LabelsArgs.user_id := TypedLabelsArgs.user_id a;
    LabelsArgs.disable_tqdm := TypedLabelsArgs.disable_tqdm a;
    LabelsArgs.category_search := TypedLabelsArgs.category_search a;
    LabelsArgs.as_generator := TypedLabelsArgs.as_generator a;
  |}.

(** [id_map[id]] *)
Definition getitem (id_map : gmap string string) (id : string) : Py.M W string :=
  match id_map !! id with
  | Some v => mret v
  | None => Py.raise (Py.KeyError id)
  end.

(** [if external_ids is not None and asset_ids is None: ...]: the value of
    [asset_ids] after the statement. *)
Definition resolve_asset_ids (self : self_t) (project_id : string)
    (asset_ids external_ids : option (list string)) : Py.M W (option (list string)) :=
  match external_ids, asset_ids with
  | Some external_ids, None =>
      id_map ← infer_ids_from_external_ids (auth self) external_ids project_id;
      ids ← mapM (getitem id_map) external_ids;
      mret (Some ids)
  | _, _ => mret asset_ids
  end.

(** [except NoCompatibleJobError as excp: print(str(excp))] *)
Definition except_NoCompatibleJobError (excp : Py.exn) : option (Py.M W unit) :=
  match excp with
  | Py.NoCompatibleJobError _ => Some (Py.print (Py.str excp))
  | _ => None
  end.

(** [export_labels]; its arguments in the order of the signature. *)
Definition export_labels (self : self_t)
    (project_id filename : string) (fmt : LabelFormat)
    (asset_ids : option (list string)) (layout : SplitOption)
    (single_file disable_tqdm with_assets : bool)
    (external_ids : option (list string))
    (annotation_modifier : option CocoAnnotationModifier)
    (asset_filter_kwargs : option AssetFilterKwargs) : Py.M W unit :=
  asset_ids ← resolve_asset_ids self project_id asset_ids external_ids;
  Py.try_except
    (services_export_labels (auth self) {|
       kw_asset_ids := asset_ids;
       kw_project_id := project_id;
       kw_export_type := "latest";
       kw_label_format := fmt;
       kw_split_option := layout;
       kw_single_file := single_file;
       kw_output_file := filename;
       kw_disable_tqdm := disable_tqdm;
       kw_log_level := "WARNING";
       kw_with_assets := with_assets;
       kw_annotation_modifier := annotation_modifier;
       kw_asset_filter_kwargs := asset_filter_kwargs;
     |})
    except_NoCompatibleJobError.

End QueriesLabel.
End QueriesLabel.

(** ** [kili.cli.project.export]: the [export] command *)

Module Cli.
Section Cli.

(** [Kili]: the client object [get_kili_client] returns. *)
Context {W Kili : Type}.

(** The keyword arguments the command passes to [services.export_labels]. *)
Record ExportKwargs : Type := {
  kw_asset_ids : option (list string);
  kw_project_id : string;
  kw_export_type : string;
  kw_label_format : LabelFormat;
  kw_split_option : SplitOption;
  kw_output_file : string;
  kw_disable_tqdm : bool;
  kw_log_level : string;
}.

(** Collaborators whose code is outside these files. *)
Variable get_kili_client : option string -> option string -> Py.M W Kili.
Variable services_export_labels : Kili -> ExportKwargs -> Py.M W unit.

(** [except NoCompatibleJobError as excp: print(str(excp))] *)
Definition except_NoCompatibleJobError (excp : Py.exn) : option (Py.M W unit) :=
  match excp with
  | Py.NoCompatibleJobError _ => Some (Py.print (Py.str excp))
  | _ => None
  end.

(** The callback of the command; its arguments in the order of the
    signature. *)
Definition export_labels (output_format : LabelFormat) (output_file : string)
    (layout : SplitOption) (api_key endpoint : option string)
    (project_id : string) (verbose : bool) : Py.M W unit :=
  kili ← get_kili_client api_key endpoint;
  Py.try_except
    (services_export_labels kili {|
       kw_asset_ids := None;
       kw_project_id := project_id;
       kw_export_type := "latest";
       kw_label_format := output_format;
       kw_split_option := layout;
       kw_output_file := output_file;
       kw_disable_tqdm := negb verbose;
       kw_log_level := if verbose then "INFO" else "WARNING";
     |})
    except_NoCompatibleJobError.

End Cli.

(** Modelled from the spec: the exit status of the process that runs the
    command; the command runner (the [click] library) is not part of these
    files. "exits non-zero on fatal errors, prints a message and exits 0 on
    the no compatible job condition": the status is 0 when the callback
    returns and 1 when an exception leaves it. *)
Definition exit_status {A} (r : Py.result A) : Z :=
  match r with
  | Py.Return _ => 0
  | Py.Raise _ => 1
  end.

End Cli.

(** ** The calls the properties below compare with *)

(** The call of [labels] that repeats the query parameters [a] of a call of
    [predictions] or [inferences], with the given [fields] and [type_in]. *)
Definition labels_with_type_in (a : TypedLabelsArgs.t)
    (fields : list string) (type_in : list string) : LabelsArgs.t := {|
  LabelsArgs.project_id := TypedLabelsArgs.project_id a;
  LabelsArgs.asset_id := TypedLabelsArgs.asset_id a;
  LabelsArgs.asset_status_in := TypedLabelsArgs.asset_status_in a;
  LabelsArgs.asset_external_id_in := TypedLabelsArgs.asset_external_id_in a;
  LabelsArgs.author_in := TypedLabelsArgs.author_in a;
  LabelsArgs.created_at := TypedLabelsArgs.created_at a;
  LabelsArgs.created_at_gte := TypedLabelsArgs.created_at_gte a;
  LabelsArgs.created_at_lte := TypedLabelsArgs.created_at_lte a;
  LabelsArgs.fields := fields;
  LabelsArgs.first := TypedLabelsArgs.first a;
  LabelsArgs.honeypot_mark_gte := TypedLabelsArgs.honeypot_mark_gte a;
  LabelsArgs.honeypot_mark_lte := TypedLabelsArgs.honeypot_mark_lte a;
  LabelsArgs.id_contains := TypedLabelsArgs.id_contains a;
  LabelsArgs.label_id := TypedLabelsArgs.label_id a;
  LabelsArgs.skip := TypedLabelsArgs.skip a;
  LabelsArgs.type_in := Some type_in;
  LabelsArgs.user_id := TypedLabelsArgs.user_id a;
  LabelsArgs.disable_tqdm := TypedLabelsArgs.disable_tqdm a;
  LabelsArgs.category_search := TypedLabelsArgs.category_search a;
  LabelsArgs.as_generator := TypedLabelsArgs.as_generator a;
|}.

(** The default [fields] of [labels] with [modelName] in the place of
    [secondsToLabel]. *)
Definition model_name_for_seconds_to_label (fields : list string) : list string :=
  (fun f => if decide (f = "secondsToLabel") then "modelName" else f) <$> fields.


(** ** [kili.services.export.format.yolo.common]: the YOLO asset processor

    The module itself is outside the embedded sources; its test
    ([tests/services/export/test_yolo.py]) is embedded. *)

Module Yolo.
Section Yolo.

(** [Label]: a label, "a JSON-like response keyed by job name"; [YoloLine]:
    one converted annotation, "(category_index, center_x, center_y, width,
    height)"; [Bytes]: the content of an asset. *)
Context {Label YoloLine Bytes : Type}.

(** Modelled from the spec: a category ("a named class within a job,
    assigned a stable numeric index for encoded formats"), as the values of
    the [category_ids] argument of the test. *)
Record JobCategory : Type := {
  category_name : string;
  id : nat;
  job_id : string;
}.

(** Modelled from the spec: an asset as the processor reads it ("external
    id", "content URL", its label, "optional multiple video frames (each
    frame itself behaves as a sub-asset ...)"). The label is that of the
    image, or one label per frame of the video, in frame order. *)
Inductive AssetLabels : Type :=
| image_label (latestLabel : Label)
| video_labels (frames : list Label).

(** Modelled from the spec: the asset itself: external id, content URL,
    labels. *)
Record Asset : Type := {
  externalId : string;
  content : string;
  labels : AssetLabels;
}.

(** Modelled from the spec: the content fetcher as the processor uses it
    (section 4.1): whether the content behind a URL is fetched and embedded,
    and the bytes fetched. The test builds one that embeds nothing ("not
    served by kili"). *)
Record ContentRepository : Type := {
  is_serving : string -> bool;
  get_content : string -> Bytes;
}.

(** The converter [_convert_from_kili_to_yolo_format(job_id, label,
    category_ids)], a function of its own in the module, which the processor
    only calls. *)
Variable _convert_from_kili_to_yolo_format :
  string -> Label -> list JobCategory -> list YoloLine.

(** Modelled from the spec: the jobs [category_ids] names, each once, in the
    order of their first category. *)
Definition job_ids (category_ids : list JobCategory) : list string :=
  remove_dups (job_id <$> category_ids).

(** Modelled from the spec: the lines of one label file, "one line per
    annotation, one file per (asset-or-frame, job) when split, or
    concatenated across jobs when merged": the converted annotations of every
    job of [category_ids]. *)
Definition frame_labels (label : Label) (category_ids : list JobCategory)
    : list YoloLine :=
  job ← job_ids category_ids;
  _convert_from_kili_to_yolo_format job label category_ids.

(** Modelled from the spec: a row of the remote-content manifest, "columns:
    external id, remote URL, local label filename". *)
Definition remote_content_row (asset : Asset) (filename : string) : list string :=
  [externalId asset; content asset; filename +:+ ".txt"].

(** Modelled from the spec: what [_process_asset] returns and leaves on
    disk: the manifest rows, the frame identifiers, and the two folders (file
    name to content). *)
Record Processed : Type := {
  asset_remote_content : list (list string);
  video_filenames : list string;
  images_folder : gmap string Bytes;
  labels_folder : gmap string (list YoloLine);
}.

(** Modelled from the spec: one image or one frame, named [filename]
    (section 4.3: "convert-per-job, write-per-job-file(s),
    accumulate-manifest-row"). Nothing is written for a label with no
    annotation of the jobs at hand (section 8: "empty labels/ directories for
    jobs with zero annotations"). The content is embedded in the images
    folder when the repository serves it, and referenced by a manifest row
    otherwise (section 6). *)
Definition process_frame (asset : Asset) (filename : string) (label : Label)
    (category_ids : list JobCategory) (content_repository : ContentRepository)
    (acc : Processed) : Processed :=
  match frame_labels label category_ids with
  | [] => acc
  | lines =>
      let labels_folder := <[filename +:+ ".txt" := lines]> (labels_folder acc) in
      if is_serving content_repository (content asset)
      then {|
        asset_remote_content := asset_remote_content acc;
        video_filenames := video_filenames acc;
        images_folder :=
          <[filename := get_content content_repository (content asset)]>
            (images_folder acc);
        labels_folder := labels_folder;
      |}
      else {|
        asset_remote_content :=
          asset_remote_content acc ++ [remote_content_row asset filename];
        video_filenames := video_filenames acc;
        images_folder := images_folder acc;
        labels_folder := labels_folder;
      |}
  end.

(** Modelled from the spec: the identifier of frame [i] of a video, "its own
    derived filename [<externalId>_<frameIndex>]", and the name of its label
    file. *)
Definition frame_identifier (asset : Asset) (i : nat) : string :=
  externalId asset +:+ "_" +:+ pretty i.

Definition frame_label_file (asset : Asset) (i : nat) : string :=
  frame_identifier asset i +:+ ".txt".

(** Modelled from the spec: the frames of a video from index [idx] on, each
    under its identifier, counted from 1 as in the test
    ([f"video_1_{i+1}"]). *)
Fixpoint process_frames (asset : Asset) (idx : nat) (frames : list Label)
    (category_ids : list JobCategory) (content_repository : ContentRepository)
    (acc : Processed) : Processed :=
  match frames with
  | [] => acc
  | frame :: frames =>
      let filename := frame_identifier asset (idx + 1) in
      let acc := {|
        asset_remote_content := asset_remote_content acc;
        video_filenames := video_filenames acc ++ [filename];
        images_folder := images_folder acc;
        labels_folder := labels_folder acc;
      |} in
      process_frames asset (S idx) frames category_ids content_repository
        (process_frame asset filename frame category_ids content_repository acc)
  end.

(** Modelled from the spec: [_process_asset(asset, images_folder,
    labels_folder, category_ids, content_repository)]; the two folders are
    given by their content, and returned with what was written. *)
Definition _process_asset (asset : Asset)
    (images_folder : gmap string Bytes) (labels_folder : gmap string (list YoloLine))
    (category_ids : list JobCategory) (content_repository : ContentRepository)
    : Processed :=
  let acc := {|
    asset_remote_content := [];
    video_filenames := [];
    images_folder := images_folder;
    labels_folder := labels_folder;
  |} in
  match labels asset with
  | image_label latestLabel =>
      process_frame asset (externalId asset) latestLabel category_ids
        content_repository acc
  | video_labels frames =>
      process_frames asset 0 frames category_ids content_repository acc
  end.

End Yolo.
End Yolo.

(** ** [kili.services.export]: the layout of the archive

    The export service itself is outside the embedded sources; its callers
    and its tests ([tests/services/export/test_export.py]) are embedded. *)

Module ServicesExport.

(** What a job asks of the labeler, as far as the formats tell jobs apart. *)
Inductive JobTask : Type :=
| object_detection_bounding_box
| object_detection_semantic_segmentation
| other_task.

(** Modelled from the spec: a job ("name (used as folder/key), category list
    (ordered ...), task type"). *)
Record Job : Type := {
  name : string;
  task : JobTask;
  categories : list string;
}.

(** The formats and the tasks they support, from the docstring of
    [QueriesLabel.export_labels]: "Yolo V4, V5, V7 for object detection tasks
    (bounding box). Kili (a.k.a raw) for all tasks. COCO for object detection
    tasks (bounding box and semantic segmentation). Pascal VOC for object
    detection tasks (bounding box)." *)
Definition job_compatible (fmt : LabelFormat) (job : Job) : bool :=
  match fmt, task job with
  | raw, _ => true
  | coco, (object_detection_bounding_box | object_detection_semantic_segmentation) => true
  | (yolo_v4 | yolo_v5 | yolo_v7 | pascal_voc), object_detection_bounding_box => true
  | _, _ => false
  end.

(** Modelled from the spec: the jobs the validator lets through (section
    4.4 (c): "the filtered list of compatible jobs"). *)
Definition compatible_jobs (fmt : LabelFormat) (jobs : list Job) : list Job :=
  filter (fun job => job_compatible fmt job = true) jobs.

(** Modelled from the spec: the categories of [jobs] with their indices
    ("category list (ordered, each with a stable index ...)"), numbered in
    order across the jobs. *)
Definition category_ids (jobs : list Job) : list Yolo.JobCategory :=
  imap (fun i jc => {| Yolo.category_name := jc.2; Yolo.id := i; Yolo.job_id := jc.1 |})
       (job ← jobs; (fun c => (name job, c)) <$> categories job).

(** A member of the archive: a file, or a directory entry, by its path from
    the root. *)
Inductive entry : Type :=
| File (path : list string)
| Dir (path : list string).

Global Instance entry_eq_dec : EqDecision entry.
Proof. solve_decision. Defined.

(** The name of a member in the zip file: the path joined by [/], with a
    trailing [/] for a directory entry. *)
Definition member_name (e : entry) : string :=
  match e with
  | File path => String.concat "/" path
  | Dir path => String.concat "/" path +:+ "/"
  end.

(** The class file [_write_class_file] writes for a YOLO format, as
    [test_yolo.py] has it: [classes.txt] for [yolo_v4], [data.yaml] for
    [yolo_v5] and [yolo_v7]. *)
Definition class_file (fmt : LabelFormat) : option string :=
  match fmt with
  | yolo_v4 => Some "classes.txt"
  | yolo_v5 | yolo_v7 => Some "data.yaml"
  | _ => None
  end.

(** The YOLO formats. *)
Definition is_yolo (fmt : LabelFormat) : bool :=
  match fmt with
  | yolo_v4 | yolo_v5 | yolo_v7 => true
  | _ => false
  end.

(** The formats with a single-file mode, from the docstring of
    [QueriesLabel.export_labels]: "Single file mode is only available for
    some specific formats (COCO and Kili)". *)
Definition supports_single_file (fmt : LabelFormat) : bool :=
  match fmt with
  | coco | raw => true
  | _ => false
  end.

(** The two errors of [kili.services.export.exceptions] that
    [test_export.py] imports and expects, by class. *)
Inductive ExportError : Type :=
| NoCompatibleJobError
| NotCompatibleOptions.

(** What an export leaves behind: the archive at [output_file], by its
    members, or the error it was refused with, and then no archive. *)
Inductive outcome : Type :=
| Archive (members : list entry)
| Refused (error : ExportError).

Section Layout.

Context {Label YoloLine Bytes : Type}.
Variable _convert_from_kili_to_yolo_format :
  string -> Label -> list Yolo.JobCategory -> list YoloLine.

(** The members that hold the labels in single-file mode ("packaging all
    labels of a job/project into one manifest file instead of one file per
    asset"), for a format and the compatible jobs. Neither the spec nor a
    test names or places them, so they stay a parameter. *)
Variable single_file_manifest : LabelFormat -> list Job -> list entry.

(** Modelled from the spec: the YOLO processor run over the assets in order
    (section 4.5: "invoke Asset/Job Processor per asset"), from empty
    folders; the rows and frame identifiers add up. *)
Definition process_assets (assets : list (@Yolo.Asset Label))
    (category_ids : list Yolo.JobCategory)
    (content_repository : @Yolo.ContentRepository Bytes)
    : @Yolo.Processed YoloLine Bytes :=
  foldl
    (fun acc asset =>
       let r := Yolo._process_asset _convert_from_kili_to_yolo_format asset
                  (Yolo.images_folder acc) (Yolo.labels_folder acc)
                  category_ids content_repository in
       {| Yolo.asset_remote_content :=
            Yolo.asset_remote_content acc ++ Yolo.asset_remote_content r;
          Yolo.video_filenames := Yolo.video_filenames acc ++ Yolo.video_filenames r;
          Yolo.images_folder := Yolo.images_folder r;
          Yolo.labels_folder := Yolo.labels_folder r |})
    {| Yolo.asset_remote_content := []; Yolo.video_filenames := [];
       Yolo.images_folder := ∅; Yolo.labels_folder := ∅ |}
    assets.

(** Modelled from the spec: the label files written for the jobs [jobs]
    into one [labels] directory: those of the YOLO processor; "passthrough of
    the original label JSON per asset" for raw and an "XML tree per image"
    for Pascal VOC, named after the asset; none for COCO, whose annotations
    go to one [labels.json] per job. *)
Definition label_files (fmt : LabelFormat) (jobs : list Job)
    (assets : list (@Yolo.Asset Label))
    (content_repository : @Yolo.ContentRepository Bytes) : list string :=
  match fmt with
  | yolo_v4 | yolo_v5 | yolo_v7 =>
      (map_to_list
         (Yolo.labels_folder
            (process_assets assets (category_ids jobs) content_repository))).*1
  | raw => (fun asset => Yolo.externalId asset +:+ ".json") <$> assets
  | pascal_voc => (fun asset => Yolo.externalId asset +:+ ".xml") <$> assets
  | coco => []
  end.

(** Modelled from the spec: a [labels] directory under [root] with its label
    files, and the class file beside it (section 4.5: "[classes.txt] for
    YOLO v4; [data.yaml] for YOLO v5/v7"). The directory entry is there
    whether or not a label file is. *)
Definition labels_directory (root : list string) (fmt : LabelFormat)
    (jobs : list Job) (assets : list (@Yolo.Asset Label))
    (content_repository : @Yolo.ContentRepository Bytes) : list entry :=
  Dir (root ++ ["labels"])
  :: ((fun f => File (root ++ ["labels"; f]))
        <$> label_files fmt jobs assets content_repository)
  ++ match class_file fmt with
     | Some f => [File (root ++ [f])]
     | None => []
     end.

(** Modelled from the spec: the part of the archive that holds the labels
    (section 6). [split]: "one subdirectory per job name containing
    [labels/] (or equivalent) plus format manifest files"; [merged]: "a
    single [labels/] directory containing every job's annotations per asset,
    plus one shared manifest/class file". For COCO, "[labels.json] for COCO
    per job" (section 4.5), in a directory named after the job, as the
    expected tree of the COCO case of [test_export_service] has it. In
    single-file mode the labels are in the manifest instead. *)
Definition labels_entries (fmt : LabelFormat) (layout : SplitOption)
    (single_file : bool) (jobs : list Job) (assets : list (@Yolo.Asset Label))
    (content_repository : @Yolo.ContentRepository Bytes) : list entry :=
  if single_file then single_file_manifest fmt jobs
  else
    match fmt with
    | coco =>
        job ← jobs; [Dir [name job]; File [name job; "labels.json"]]
    | _ =>
        match layout with
        | split =>
            job ← jobs;
            Dir [name job]
            :: labels_directory [name job] fmt [job] assets content_repository
        | merged => labels_directory [] fmt jobs assets content_repository
        end
    end.

(** The last component of a URL. *)
Definition basename (url : string) : string :=
  List.last (Py.split "/" url) "".

(** Modelled from the spec: the runs of the YOLO processor behind an
    archive: one per job in the [split] layout, each with the categories of
    its job, and one with the categories of all jobs in the [merged] one. *)
Definition processor_runs (layout : SplitOption) (jobs : list Job)
    (assets : list (@Yolo.Asset Label))
    (content_repository : @Yolo.ContentRepository Bytes)
    : list (@Yolo.Processed YoloLine Bytes) :=
  match layout with
  | split =>
      (fun job => process_assets assets (category_ids [job]) content_repository)
        <$> jobs
  | merged => [process_assets assets (category_ids jobs) content_repository]
  end.

(** Modelled from the spec: the part of the archive that holds or references
    the content of the assets (section 6): "a top-level [images/] with a
    [remote_assets.csv] manifest (...) when assets are not embedded, or
    embedded image files when they are". For a YOLO format these are the rows
    and the images the processor left; for Pascal VOC every asset counts. For
    COCO the content files go to a [data] directory under their own names,
    and raw has no such part, as the expected trees of [test_export_service]
    have it. *)
Definition content_entries (fmt : LabelFormat) (layout : SplitOption)
    (jobs : list Job) (assets : list (@Yolo.Asset Label))
    (content_repository : @Yolo.ContentRepository Bytes) : list entry :=
  let images_directory (remote_rows : bool) (images : list string) :=
    Dir ["images"]
    :: (if remote_rows then [File ["images"; "remote_assets.csv"]] else [])
    ++ ((fun f => File ["images"; f]) <$> images) in
  match fmt with
  | raw => []
  | coco =>
      Dir ["data"]
      :: ((fun asset => File ["data"; basename (Yolo.content asset)]) <$> assets)
  | pascal_voc =>
      let served asset :=
        Yolo.is_serving content_repository (Yolo.content asset) = true in
      images_directory
        (bool_decide (Exists (fun asset => ¬ served asset) assets))
        (Yolo.externalId <$> filter served assets)
  | yolo_v4 | yolo_v5 | yolo_v7 =>
      let runs := processor_runs layout jobs assets content_repository in
      images_directory
        (bool_decide (Exists (fun r => Yolo.asset_remote_content r <> []) runs))
        (remove_dups (r ← runs; (map_to_list (Yolo.images_folder r)).*1))
  end.

(** Modelled from the spec: the archive of an export that passed validation
    (sections 4.5, 4.6 and 6): the labels of the compatible jobs, the content
    of the assets, and the README ("Always includes a [README.kili.txt]
    describing the export"). *)
Definition archive (fmt : LabelFormat) (layout : SplitOption)
    (single_file : bool) (jobs : list Job) (assets : list (@Yolo.Asset Label))
    (content_repository : @Yolo.ContentRepository Bytes) : list entry :=
  let jobs := compatible_jobs fmt jobs in
  labels_entries fmt layout single_file jobs assets content_repository
  ++ content_entries fmt layout jobs assets content_repository
  ++ [File ["README.kili.txt"]].

(** Modelled from the spec: [export_labels] of the service, as far as the
    archive goes. The validator comes first (section 4.4): "an option error
    if [single_file=True] is requested for a format (...) that does not
    support single-file packaging", "an incompatibility error if zero jobs
    support the format"; the option error is checked first, being "raised
    before any fetch" (section 7), while the jobs are those of the fetched
    project. A refused export writes no archive; the others write
    [archive]. *)
Definition export_labels (fmt : LabelFormat) (layout : SplitOption)
    (single_file : bool) (jobs : list Job) (assets : list (@Yolo.Asset Label))
    (content_repository : @Yolo.ContentRepository Bytes) : outcome :=
  if single_file && negb (supports_single_file fmt) then Refused NotCompatibleOptions
  else
    match compatible_jobs fmt jobs with
    | [] => Refused NoCompatibleJobError
    | _ :: _ =>
        Archive (archive fmt layout single_file jobs assets content_repository)
    end.

End Layout.
End ServicesExport.

(** ** [tests/services/export/test_export.py] *)

Module TestExport.

(** The value of [get_file_tree]: a dictionary from names to dictionaries;
    a file and an empty directory are both an empty dictionary. *)
#[warnings="-register-all"]
Inductive tree : Type := Node (children : gmap string tree).

Definition children (t : tree) : gmap string tree :=
  match t with Node children => children end.

(** The inner loop of [get_file_tree], from the dictionary [p] on:
    [for x in ...: if len(x): p = p.setdefault(x, {})]; the result is [p] as
    the loop leaves it when it started on [p]. *)
Fixpoint setdefault_path (xs : list string) (p : tree) : tree :=
  match xs with
  | [] => p
  | x :: xs =>
      if decide (x = "") then setdefault_path xs p
      else
        Node (<[x := setdefault_path xs (default (Node ∅) (children p !! x))]>
                (children p))
  end.

(** [get_file_tree], on the paths [glob] lists under the folder, relative to
    it. *)
Definition get_file_tree (filepaths : list string) : tree :=
  foldl (fun dct f_p => setdefault_path (Py.split "/" f_p) dct) (Node ∅) filepaths.

(** [z_f.extractall(extract_folder)] followed by the [glob] of
    [get_file_tree]: every member of the archive and every directory above
    one, as a path relative to the folder. *)
Definition extracted_paths (archive : list ServicesExport.entry) : list string :=
  e ← archive;
  let path :=
    match e with ServicesExport.File path | ServicesExport.Dir path => path end in
  (fun n => String.concat "/" (take n path)) <$> seq 1 (length path).

(** The [export_kwargs] of a test case: the keys it sets. *)
Record export_kwargs : Type := {
  project_id : string;
  label_format : LabelFormat;
  split_option : option SplitOption;
  single_file : option bool;
}.

(** [default_kwargs.update(test_case["export_kwargs"])]: the layout and the
    single-file flag the export is called with ([default_kwargs] has
    ["split_option": "merged"] and ["single_file": False]). *)
Definition split_option_called (kw : export_kwargs) : SplitOption :=
  default merged (split_option kw).
Definition single_file_called (kw : export_kwargs) : bool :=
  default false (single_file kw).

(** A file of an expected tree, and a directory with the given content. *)
Definition file : tree := Node ∅.
Definition dir (content : list (string * tree)) : tree := Node (list_to_map content).

(** The cases of [test_export_service]: name, [export_kwargs],
    [file_tree_expected]. *)
Definition case_yolo_v5_split : string * export_kwargs * tree :=
  ("Export to YOLO v5 format with splitted files",
   {| project_id := "object_detection"; label_format := yolo_v5;
      split_option := Some split; single_file := None |},
   dir [("images", dir [("remote_assets.csv", file)]);
        ("JOB_0", dir [("labels", dir [("car_1.txt", file)]); ("data.yaml", file)]);
        ("JOB_1", dir [("labels", dir []); ("data.yaml", file)]);
        ("JOB_2", dir [("labels", dir []); ("data.yaml", file)]);
        ("JOB_3", dir [("labels", dir []); ("data.yaml", file)]);
        ("README.kili.txt", file)]).

Definition case_yolo_v5_merged : string * export_kwargs * tree :=
  ("Export to YOLO v5 format with merged file",
   {| project_id := "object_detection"; label_format := yolo_v5;
      split_option := Some merged; single_file := None |},
   dir [("images", dir [("remote_assets.csv", file)]);
        ("labels", dir [("car_1.txt", file)]);
        ("data.yaml", file);
        ("README.kili.txt", file)]).

Definition case_yolo_v4_merged : string * export_kwargs * tree :=
  ("Export to YOLO v4 format with merged file",
   {| project_id := "object_detection"; label_format := yolo_v4;
      split_option := Some merged; single_file := None |},
   dir [("images", dir [("remote_assets.csv", file)]);
        ("labels", dir [("car_1.txt", file)]);
        ("classes.txt", file);
        ("README.kili.txt", file)]).

Definition case_raw : string * export_kwargs * tree :=
  ("Export to Kili raw format",
   {| project_id := "object_detection"; label_format := raw;
      split_option := None; single_file := None |},
   dir [("labels", dir [("car_1.json", file)]);
        ("README.kili.txt", file)]).

Definition case_coco : string * export_kwargs * tree :=
  ("Export to COCO format",
   {| project_id := "semantic_segmentation"; label_format := coco;
      split_option := None; single_file := None |},
   dir [("data", dir [("car_1.jpg", file); ("car_2.jpg", file)]);
        ("JOB_0", dir [("labels.json", file)]);
        ("README.kili.txt", file)]).

Definition test_export_service_cases : list (string * export_kwargs * tree) :=
  [case_yolo_v5_split; case_yolo_v5_merged; case_yolo_v4_merged; case_raw; case_coco].

(** The cases of [test_export_service_errors]: name, [export_kwargs], the
    error expected. *)
Definition case_text_classification_yolo
    : string * export_kwargs * ServicesExport.ExportError :=
  ("Export text classification to Yolo format to throw error",
   {| project_id := "text_classification"; label_format := yolo_v4;
      split_option := Some merged; single_file := None |},
   ServicesExport.NoCompatibleJobError).

Definition case_yolo_single_file
    : string * export_kwargs * ServicesExport.ExportError :=
  ("Export Yolo format with single file to throw error",
   {| project_id := "object_detection"; label_format := yolo_v4;
      split_option := Some merged; single_file := Some true |},
   ServicesExport.NotCompatibleOptions).

Definition test_export_service_errors_cases
    : list (string * export_kwargs * ServicesExport.ExportError) :=
  [case_text_classification_yolo; case_yolo_single_file].

End TestExport.
(** ** Stand-ins for the collaborators, for the examples

    The world is empty: only what is printed is observed. *)

Module Fake.

Definition auth : @QueriesLabel.KiliAuth unit := {| QueriesLabel.client := tt |}.

Definition self : @QueriesLabel.self_t unit := {| QueriesLabel.auth := auth |}.

Definition s0 : Py.state unit := Py.State [] tt.

(** The ids of two assets. *)
Definition id_map : gmap string string :=
  list_to_map [("car_1", "clb0car1"); ("car_2", "clb0car2")].

Definition infer_ids_from_external_ids (_ : @QueriesLabel.KiliAuth unit)
    (_ : list string) (_ : string) : Py.M unit (gmap string string) :=
  mret id_map.

(** An export service that prints the asset ids it is called with. *)
Definition services_export_labels_echo (_ : @QueriesLabel.KiliAuth unit)
    (kw : @QueriesLabel.ExportKwargs unit unit) : Py.M unit unit :=
  match QueriesLabel.kw_asset_ids kw with
  | Some ids => mapM Py.print ids;; mret tt
  | None => mret tt
  end.

Definition no_compatible_job_message : string :=
  "no job of project text_classification can be exported to yolo_v4".

(** An export service asked for a format no job of the project can be
    converted to. *)
Definition services_export_labels_no_job (_ : @QueriesLabel.KiliAuth unit)
    (_ : @QueriesLabel.ExportKwargs unit unit) : Py.M unit unit :=
  Py.raise (Py.NoCompatibleJobError no_compatible_job_message).

(** The same behind the command: the client is the empty world's only value. *)
Definition get_kili_client (_ _ : option string) : Py.M unit unit := mret tt.

Definition cli_services_export_labels_no_job (_ : unit) (_ : Cli.ExportKwargs)
    : Py.M unit unit :=
  Py.raise (Py.NoCompatibleJobError no_compatible_job_message).

End Fake.


(** ** Stand-ins for the project data of the tests

    [tests/services/export/fakes] is outside the embedded sources. The
    stand-ins below are the smallest project data that the names in the two
    test files call for: a label keeps, per job, the categories of its
    annotations (their geometry is left out), a converted line keeps the
    index of the category. *)

Module FakeKili.

Definition Label : Type := list (string * list string).
Definition YoloLine : Type := nat.

(** The index of category [c] of job [job]. *)
Definition category_index (job c : string) (category_ids : list Yolo.JobCategory)
    : list nat :=
  Yolo.id <$> filter (fun jc => Yolo.job_id jc = job /\ Yolo.category_name jc = c)
                category_ids.

(** A converter: one line per annotation of the job. *)
Definition _convert_from_kili_to_yolo_format (job_id : string) (label : Label)
    (category_ids : list Yolo.JobCategory) : list YoloLine :=
  '(job, annotations) ← label;
  if decide (job = job_id)
  then c ← annotations; category_index job_id c category_ids
  else [].

(** [FakeContentRepository("https://contentrep", {}, False)]: no asset of
    the tests is served by it. *)
Definition fake_content_repository : @Yolo.ContentRepository unit := {|
  Yolo.is_serving := fun _ => false;
  Yolo.get_content := fun _ => tt;
|}.

(** A content repository that serves every asset, with empty content. *)
Definition serving_content_repository : @Yolo.ContentRepository unit := {|
  Yolo.is_serving := fun _ => true;
  Yolo.get_content := fun _ => tt;
|}.

Definition object_detection_job (name : string) : ServicesExport.Job := {|
  ServicesExport.name := name;
  ServicesExport.task := ServicesExport.object_detection_bounding_box;
  ServicesExport.categories := ["OBJECT_A"; "OBJECT_B"];
|}.

(** [asset_image_1]: one annotation, in [JOB_0]. *)
Definition asset_image_1 : @Yolo.Asset Label := {|
  Yolo.externalId := "car_1";
  Yolo.content := "https://storage.googleapis.com/label-public-staging/car/car_1.jpg";
  Yolo.labels := Yolo.image_label [("JOB_0", ["OBJECT_A"])];
|}.

Definition asset_image_2 : @Yolo.Asset Label := {|
  Yolo.externalId := "car_2";
  Yolo.content := "https://storage.googleapis.com/label-public-staging/car/car_2.jpg";
  Yolo.labels := Yolo.image_label [("JOB_0", ["OBJECT_A"])];
|}.

(** [asset_video]: four labeled frames. *)
Definition asset_video : @Yolo.Asset Label := {|
  Yolo.externalId := "video_1";
  Yolo.content := "https://storage.googleapis.com/label-public-staging/video1/video1.mp4";
  Yolo.labels :=
    Yolo.video_labels
      [[("JOB_0", ["OBJECT_A"])]; [("JOB_0", ["OBJECT_A"])];
       [("JOB_0", ["OBJECT_B"])]; [("JOB_0", ["OBJECT_A"; "OBJECT_B"])]];
|}.

(** [category_ids] of the YOLO tests: the categories of [JOB_0]. *)
Definition category_ids : list Yolo.JobCategory :=
  ServicesExport.category_ids [object_detection_job "JOB_0"].

(** The projects of [FakeKili], by [project_id]: jobs and assets. *)
Definition jobs (project_id : string) : list ServicesExport.Job :=
  if decide (project_id = "object_detection") then
    object_detection_job <$> ["JOB_0"; "JOB_1"; "JOB_2"; "JOB_3"]
  else if decide (project_id = "semantic_segmentation") then
    [{| ServicesExport.name := "JOB_0";
        ServicesExport.task := ServicesExport.object_detection_semantic_segmentation;
        ServicesExport.categories := ["OBJECT_A"; "OBJECT_B"] |}]
  else if decide (project_id = "text_classification") then
    [{| ServicesExport.name := "JOB_0";
        ServicesExport.task := ServicesExport.other_task;
        ServicesExport.categories := ["A"; "B"] |}]
  else [].

Definition assets (project_id : string) : list (@Yolo.Asset Label) :=
  if decide (project_id = "object_detection") then [asset_image_1]
  else if decide (project_id = "semantic_segmentation") then
    [asset_image_1; asset_image_2]
  else [].

(** No test exports in single-file mode with success; the manifest of that
    mode is left out of the fake exports. *)
Definition single_file_manifest (fmt : LabelFormat) (jobs : list ServicesExport.Job)
    : list ServicesExport.entry :=
  [].

(** What [export_labels(fake_kili, **default_kwargs)] leaves for the
    [export_kwargs] of a test case: the archive at [output_file], or the
    error. *)
Definition exported (kw : TestExport.export_kwargs) : ServicesExport.outcome :=
  ServicesExport.export_labels _convert_from_kili_to_yolo_format single_file_manifest
    (TestExport.label_format kw) (TestExport.split_option_called kw)
    (TestExport.single_file_called kw)
    (jobs (TestExport.project_id kw)) (assets (TestExport.project_id kw))
    fake_content_repository.

(** [file_tree_result] of the test, which it reaches when the export
    returned. *)
Definition file_tree_result (kw : TestExport.export_kwargs) : option TestExport.tree :=
  match exported kw with
  | ServicesExport.Archive members =>
      Some (TestExport.get_file_tree (TestExport.extracted_paths members))
  | ServicesExport.Refused _ => None
  end.

(** [_process_asset(asset_video, images_folder, labels_folder, category_ids,
    fake_content_repository)] of [test_yolo.py], the two folders empty. *)
Definition processed_video : @Yolo.Processed YoloLine unit :=
  Yolo._process_asset _convert_from_kili_to_yolo_format asset_video ∅ ∅
    category_ids fake_content_repository.

(** The same with a repository that serves the video. *)
Definition processed_video_served : @Yolo.Processed YoloLine unit :=
  Yolo._process_asset _convert_from_kili_to_yolo_format asset_video ∅ ∅
    category_ids serving_content_repository.

End FakeKili.

(** ** [QueriesLabel]: [count_labels] and [export_labels_as_df] *)

(** The keyword arguments of [QueriesLabel.count_labels]. *)
Module CountLabelsArgs.
Record t : Type := mk {
  project_id : string;
  asset_id : option string;
  asset_status_in : option (list string);
  asset_external_id_in : option (list string);
  author_in : option (list string);
  created_at : option string;
  created_at_gte : option string;
  created_at_lte : option string;
  honeypot_mark_gte : option float;
  honeypot_mark_lte : option float;
  label_id : option string;
  type_in : option (list string);
  user_id : option string;
  category_search : option string;
  id_contains : option (list string);
}.
End CountLabelsArgs.

Module QueriesLabelOther.
Section QueriesLabelOther.

(** [W], [Client]: as for [QueriesLabel]. [V]: a value of a dictionary the
    API returns; [AssetWhere]: the filter of an asset query; [DataFrame]: a
    [pandas.DataFrame]. *)
Context {W Client V AssetWhere DataFrame : Type}.

(** Collaborators whose code is outside these files. *)
Variable validate_category_search_query : string -> Py.M W unit.
Variable LabelQuery_count : Client -> LabelWhere.t -> Py.M W Z.
Variable services_get_project :
  @QueriesLabel.KiliAuth Client -> string -> list string -> Py.M W unit.
Variable AssetWhere_project_id : string -> AssetWhere.
Variable AssetQuery :
  Client -> AssetWhere -> list string -> QueryOptions.t ->
  Py.generator W (gmap string V).
Variable pd_DataFrame : list (gmap string V) -> DataFrame.

(** [QueryOptions(disable_tqdm=False)]: the other two fields take the
    defaults of the class, which is outside these files. *)
Variable QueryOptions_first_default : option Z.
Variable QueryOptions_skip_default : Z.

(** [for label in v]: the label dictionaries a value yields when iterated in
    the comprehension of [export_labels_as_df], or the exception that
    iterating it, or making a dictionary of one of its items, raises. *)
Variable iter_labels : V -> Py.result (list (gmap string V)).

Definition count_labels (self : @QueriesLabel.self_t Client) (a : CountLabelsArgs.t)
    : Py.M W Z :=
  Py.if_truthy (CountLabelsArgs.category_search a) validate_category_search_query;;
  let where_ := {|
    LabelWhere.project_id := CountLabelsArgs.project_id a;
    LabelWhere.asset_id := CountLabelsArgs.asset_id a;
    LabelWhere.asset_status_in := CountLabelsArgs.asset_status_in a;
    LabelWhere.asset_external_id_in := CountLabelsArgs.asset_external_id_in a;
    LabelWhere.author_in := CountLabelsArgs.author_in a;
    LabelWhere.created_at := CountLabelsArgs.created_at a;
    LabelWhere.created_at_gte := CountLabelsArgs.created_at_gte a;
    LabelWhere.created_at_lte := CountLabelsArgs.created_at_lte a;
    LabelWhere.honeypot_mark_gte := CountLabelsArgs.honeypot_mark_gte a;
    LabelWhere.honeypot_mark_lte := CountLabelsArgs.honeypot_mark_lte a;
    LabelWhere.id_contains := CountLabelsArgs.id_contains a;
    LabelWhere.label_id := CountLabelsArgs.label_id a;
    LabelWhere.type_in := CountLabelsArgs.type_in a;
    LabelWhere.user_id := CountLabelsArgs.user_id a;
    LabelWhere.category_search := CountLabelsArgs.category_search a;
  |} in
  LabelQuery_count (QueriesLabel.client (QueriesLabel.auth self)) where_.

(** [{f"asset_{key}": asset[key] for key in asset if key != "labels"}] *)
Definition asset_columns (asset : gmap string V) : gmap string V :=
  kmap (String.app "asset_") (filter (fun kv => kv.1 <> "labels") asset).

(** [dict(label, **columns)]: the keyword arguments win over the keys of
    [label]. *)
Definition dict_with (label columns : gmap string V) : gmap string V :=
  columns ∪ label.

(** [asset["labels"]] *)
Definition getitem_labels (asset : gmap string V) : Py.result V :=
  match asset !! "labels" with
  | Some v => Py.Return v
  | None => Py.Raise (Py.KeyError "labels")
  end.

(** The comprehension
    [[dict(label, **{...}) for asset in assets_gen for label in asset["labels"]]]
    over the assets drawn from the generator. *)
Fixpoint labels_rows (assets : list (gmap string V)) : Py.result (list (gmap string V)) :=
  match assets with
  | [] => Py.Return []
  | asset :: assets =>
      match getitem_labels asset with
      | Py.Raise e => Py.Raise e
      | Py.Return v =>
          match iter_labels v with
          | Py.Raise e => Py.Raise e
          | Py.Return labels =>
              match labels_rows assets with
              | Py.Raise e => Py.Raise e
              | Py.Return rows =>
                  Py.Return
                    (((fun label => dict_with label (asset_columns asset)) <$> labels)
                       ++ rows)
              end
          end
      end
  end.

(** The default of [fields] and of [asset_fields] in [export_labels_as_df]. *)
Definition export_labels_as_df_default_fields : list string :=
  ["author.email"; "author.id"; "createdAt"; "id"; "labelType"].
Definition export_labels_as_df_default_asset_fields : list string := ["externalId"].

(** [export_labels_as_df]. The generator is drawn in full before the rows
    are made, where the source draws it as the comprehension advances: the
    two differ only in the state an exception of the comprehension leaves. *)
Definition export_labels_as_df (self : @QueriesLabel.self_t Client)
    (project_id : string) (fields asset_fields : list string) : Py.M W DataFrame :=
  services_get_project (QueriesLabel.auth self) project_id ["id"];;
  let assets_gen :=
    AssetQuery (QueriesLabel.client (QueriesLabel.auth self))
      (AssetWhere_project_id project_id)
      (asset_fields ++ ((fun field => "labels." +:+ field) <$> fields))
      (QueryOptions.mk false QueryOptions_first_default QueryOptions_skip_default) in
  assets ← Py.list_of assets_gen;
  match labels_rows assets with
  | Py.Raise e => Py.raise e
  | Py.Return labels => mret (pd_DataFrame labels)
  end.

End QueriesLabelOther.
End QueriesLabelOther.

(** ** [kili.cli.project.member.remove]: the [remove_member] command *)

Module CliMemberRemove.

(** A member of a project as [kili.project_users] returns it, by the keys
    the command reads: [member["user"]["email"]], [member["id"]] and
    [member["activated"]]. *)
Record ProjectUser : Type := {
  user_email : string;
  id : string;
  activated : bool;
}.

(** [{member["user"]["email"]: member["id"] for member in existing_members
    if member["activated"]}]: a later member takes the place of an earlier
    one with the same email. *)
Definition existing_members_dict (existing_members : list ProjectUser)
    : gmap string string :=
  foldl
    (fun d member => if activated member then <[user_email member := id member]> d else d)
    ∅ existing_members.

(** [f"{email} is not an active member of the project."] *)
Definition not_active_warning (email : string) : string :=
  email +:+ " is not an active member of the project.".

(** [f"{count} users have been successfully removed from project: {project_id}"] *)
Definition removed_message (count : nat) (project_id : string) : string :=
  pretty count +:+ " users have been successfully removed from project: "
  +:+ project_id.

Section CliMemberRemove.

Context {W Kili : Type}.

(** Collaborators whose code is outside these files: the client and its
    methods, the helpers of the member commands, and [warnings.warn]. A
    member to remove is a dictionary, of which the command reads the key
    [email]. *)
Variable Kili_new : option string -> option string -> Py.M W Kili.
Variable check_exclusive_options :
  option string -> option string -> list string -> bool -> Py.M W unit.
Variable collect_members_from_csv :
  string -> option string -> Py.M W (list (gmap string string)).
Variable collect_members_from_project :
  Kili -> string -> option string -> Py.M W (list (gmap string string)).
Variable collect_members_from_emails :
  list string -> option string -> Py.M W (list (gmap string string)).
Variable project_users : Kili -> string -> bool -> Py.M W (list ProjectUser).
Variable delete_from_roles : Kili -> string -> Py.M W unit.
Variable warnings_warn : string -> Py.M W unit.

(** [member["email"]] *)
Definition getitem_email (member : gmap string string) : Py.M W string :=
  match member !! "email" with
  | Some email => mret email
  | None => Py.raise (Py.KeyError "email")
  end.

(** The loop [for member in members_to_rm: ...], from [count] on; it
    returns the final [count]. *)
Fixpoint remove_loop (kili : Kili) (existing_members : gmap string string)
    (members_to_rm : list (gmap string string)) (count : nat) : Py.M W nat :=
  match members_to_rm with
  | [] => mret count
  | member :: members_to_rm =>
      email ← getitem_email member;
      match existing_members !! email with
      | Some role_id =>
          delete_from_roles kili role_id;;
          remove_loop kili existing_members members_to_rm (count + 1)
      | None =>
          warnings_warn (not_active_warning email);;
          remove_loop kili existing_members members_to_rm count
      end
  end.

(** The callback of the command; its arguments in the order of the
    signature. *)
Definition remove_member (api_key endpoint : option string) (emails : list string)
    (project_id : string) (csv_path : option string) (all_members : bool)
    : Py.M W unit :=
  kili ← Kili_new api_key endpoint;
  check_exclusive_options csv_path None emails all_members;;
  members_to_rm ←
    match csv_path with
    | Some csv_path => collect_members_from_csv csv_path None
    | None =>
        if all_members then collect_members_from_project kili project_id None
        else collect_members_from_emails emails None
    end;
  existing_members ← project_users kili project_id true;
  let existing_members := existing_members_dict existing_members in
  count ← remove_loop kili existing_members members_to_rm 0;
  Py.print (removed_message count project_id).

End CliMemberRemove.
End CliMemberRemove.

(** ** [get_file_tree]: reading the tree *)

(** [t[x1][x2]...[xn]], when every key is there. *)
Fixpoint lookup_path (t : TestExport.tree) (xs : list string) : option TestExport.tree :=
  match xs with
  | [] => Some t
  | x :: xs =>
      match TestExport.children t !! x with
      | Some child => lookup_path child xs
      | None => None
      end
  end.

(** ** A client that records what it is asked to do *)

Module Recorder.

Inductive event : Type :=
| deleted_role (role_id : string)
| warned (message : string).

Definition delete_from_roles (_ : unit) (role_id : string) : Py.M (list event) unit :=
  fun s => (Py.Return tt, Py.State (Py.stdout s) (Py.world s ++ [deleted_role role_id])).

Definition warnings_warn (message : string) : Py.M (list event) unit :=
  fun s => (Py.Return tt, Py.State (Py.stdout s) (Py.world s ++ [warned message])).

Definition Kili_new (_ _ : option string) : Py.M (list event) unit := mret tt.

Definition check_exclusive_options (_ _ : option string) (_ : list string) (_ : bool)
    : Py.M (list event) unit :=
  mret tt.

(** The members given as emails, each as a dictionary with its [email]. *)
Definition collect_members_from_emails (emails : list string) (_ : option string)
    : Py.M (list event) (list (gmap string string)) :=
  mret ((fun email => {[ "email" := email ]}) <$> emails).

(** A file whose second line has no email. *)
Definition collect_members_from_csv (_ : string) (_ : option string)
    : Py.M (list event) (list (gmap string string)) :=
  mret [ {[ "email" := "ann.lee@test.com" ]}; {[ "role" := "ADMIN" ]};
         {[ "email" := "john.doe@test.com" ]} ].

Definition collect_members_from_project (_ : unit) (_ : string) (_ : option string)
    : Py.M (list event) (list (gmap string string)) :=
  mret [].

(** A project with two active members and one that is not. *)
Definition users : list CliMemberRemove.ProjectUser := [
  {| CliMemberRemove.user_email := "john.doe@test.com";
     CliMemberRemove.id := "role-1"; CliMemberRemove.activated := true |};
  {| CliMemberRemove.user_email := "jane.doe@test.com";
     CliMemberRemove.id := "role-2"; CliMemberRemove.activated := false |};
  {| CliMemberRemove.user_email := "ann.lee@test.com";
     CliMemberRemove.id := "role-3"; CliMemberRemove.activated := true |}
].

Definition project_users (_ : unit) (_ : string) (_ : bool)
    : Py.M (list event) (list CliMemberRemove.ProjectUser) :=
  mret users.

Definition s0 : Py.state (list event) := Py.State [] [].

End Recorder.

(** ** More of the calls the properties compare with *)

(** The call of [count_labels] with the filters of a call [a] of [labels]. *)
Definition count_labels_args_of (a : LabelsArgs.t) : CountLabelsArgs.t := {|
  CountLabelsArgs.project_id := LabelsArgs.project_id a;
  CountLabelsArgs.asset_id := LabelsArgs.asset_id a;
  CountLabelsArgs.asset_status_in := LabelsArgs.asset_status_in a;
  CountLabelsArgs.asset_external_id_in := LabelsArgs.asset_external_id_in a;
  CountLabelsArgs.author_in := LabelsArgs.author_in a;
  CountLabelsArgs.created_at := LabelsArgs.created_at a;
  CountLabelsArgs.created_at_gte := LabelsArgs.created_at_gte a;
  CountLabelsArgs.created_at_lte := LabelsArgs.created_at_lte a;
  CountLabelsArgs.honeypot_mark_gte := LabelsArgs.honeypot_mark_gte a;
  CountLabelsArgs.honeypot_mark_lte := LabelsArgs.honeypot_mark_lte a;
  CountLabelsArgs.label_id := LabelsArgs.label_id a;
  CountLabelsArgs.type_in := LabelsArgs.type_in a;
  CountLabelsArgs.user_id := LabelsArgs.user_id a;
  CountLabelsArgs.category_search := LabelsArgs.category_search a;
  CountLabelsArgs.id_contains := LabelsArgs.id_contains a;
|}.

(** A label query with only a project and a category search. *)
Definition labels_args_of_project (project_id : string)
    (category_search : option string) (as_generator : bool) : LabelsArgs.t := {|
  LabelsArgs.project_id := project_id;
  LabelsArgs.asset_id := None;
  LabelsArgs.asset_status_in := None;
  LabelsArgs.asset_external_id_in := None;
  LabelsArgs.author_in := None;
  LabelsArgs.created_at := None;
  LabelsArgs.created_at_gte := None;
  LabelsArgs.created_at_lte := None;
  LabelsArgs.fields := ["id"];
  LabelsArgs.first := None;
  LabelsArgs.honeypot_mark_gte := None;
  LabelsArgs.honeypot_mark_lte := None;
  LabelsArgs.id_contains := None;
  LabelsArgs.label_id := None;
  LabelsArgs.skip := 0;
  LabelsArgs.type_in := None;
  LabelsArgs.user_id := None;
  LabelsArgs.disable_tqdm := false;
  LabelsArgs.category_search := category_search;
  LabelsArgs.as_generator := as_generator;
|}.

(** Stand-ins for the label queries: a backend with three labels, a
    validator that refuses every search and one that accepts every search. *)
Module FakeLabels.

Definition validate_refuse (query : string) : Py.M unit unit :=
  Py.raise (Py.OtherException "ValueError" query).

Definition validate_accept (_ : string) : Py.M unit unit := mret tt.

Definition disable_tqdm_if_as_generator (as_generator disable_tqdm : bool)
    : Py.M unit bool :=
  mret (as_generator || disable_tqdm).

Definition LabelQuery (_ : unit) (_ : LabelWhere.t) (_ : list string)
    (_ : QueryOptions.t) : Py.generator unit string :=
  mret ["label-1"; "label-2"; "label-3"].

Definition LabelQuery_count (_ : unit) (_ : LabelWhere.t) : Py.M unit Z := mret 3%Z.

End FakeLabels.

(** The asset has a [labels] entry, which iterates to the label
    dictionaries [ls]. *)
Definition has_labels {V} (iter_labels : V -> Py.result (list (gmap string V)))
    (asset : gmap string V) (ls : list (gmap string V)) : Prop :=
  exists v, asset !! "labels" = Some v /\ iter_labels v = Py.Return ls.

(** The rows of the assets [assets] whose labels are [lss]: those of the
    first asset, in the order of its labels, then those of the second, and so
    on. *)
Definition rows_of {V} (assets : list (gmap string V))
    (lss : list (list (gmap string V))) : list (gmap string V) :=
  mjoin (zip_with
           (fun asset ls =>
              (fun label =>
                 QueriesLabelOther.dict_with label (QueriesLabelOther.asset_columns asset))
                <$> ls)
           assets lss).

(** Stand-ins for [export_labels_as_df]: values are strings, a value
    iterates to label dictionaries when it is the name of one of two lists,
    and a data frame is the list of its rows. *)
Module FakeAssets.

Definition iter_labels (v : string) : Py.result (list (gmap string string)) :=
  if decide (v = "two labels") then
    Py.Return [ {[ "id" := "label-1" ]}; {[ "id" := "label-2"; "asset_externalId" := "x" ]} ]
  else if decide (v = "no label") then Py.Return []
  else Py.Raise (Py.OtherException "TypeError" "object is not iterable").

Definition car_1 : gmap string string :=
  {[ "externalId" := "car_1"; "labels" := "two labels" ]}.
Definition car_2 : gmap string string :=
  {[ "externalId" := "car_2"; "labels" := "no label" ]}.
Definition car_3 : gmap string string := {[ "externalId" := "car_3" ]}.

Definition services_get_project (_ : @QueriesLabel.KiliAuth unit) (_ : string)
    (_ : list string) : Py.M unit unit :=
  mret tt.

Definition AssetQuery (assets : list (gmap string string)) (_ : unit) (_ : unit)
    (_ : list string) (_ : QueryOptions.t) : Py.generator unit (gmap string string) :=
  mret assets.

Definition export_labels_as_df (assets : list (gmap string string))
    : Py.M unit (list (gmap string string)) :=
  QueriesLabelOther.export_labels_as_df services_get_project (fun _ => tt)
    (AssetQuery assets) id None 0%Z iter_labels Fake.self "object_detection"
    QueriesLabelOther.export_labels_as_df_default_fields
    QueriesLabelOther.export_labels_as_df_default_asset_fields.

End FakeAssets.

(** More stand-ins for the export entry points: an id inference that
    fails, and an export service that fails for another reason. *)
Module FakeExport.

Definition infer_ids_fails (_ : @QueriesLabel.KiliAuth unit) (_ : list string)
    (_ : string) : Py.M unit (gmap string string) :=
  Py.raise (Py.NoCompatibleJobError "raised while inferring the ids").

Definition services_export_labels_denied (_ : @QueriesLabel.KiliAuth unit)
    (_ : @QueriesLabel.ExportKwargs unit unit) : Py.M unit unit :=
  Py.print "Fetching assets...";; Py.raise (Py.OtherException "PermissionError" "denied").

Definition cli_services_export_labels_denied (_ : unit) (_ : Cli.ExportKwargs)
    : Py.M unit unit :=
  Py.print "Fetching assets...";; Py.raise (Py.OtherException "PermissionError" "denied").

End FakeExport.

(** The keys [get_file_tree] walks for a path: its pieces between the
    slashes, the empty ones left out. *)
Definition components (f_p : string) : list string :=
  filter (fun x => x <> "") (Py.split "/" f_p).

(** What the loop of [remove_member] does for one email, on a world where
    deleting the role [r] does [on_delete r] and warning with [m] does
    [on_warn m]. *)
Definition removal_effect {W} (on_delete on_warn : string -> W -> W)
    (existing_members : gmap string string) (w : W) (email : string) : W :=
  match existing_members !! email with
  | Some role_id => on_delete role_id w
  | None => on_warn (CliMemberRemove.not_active_warning email) w
  end.

(** The emails, among [emails], of the active members. *)
Definition active_emails (existing_members : gmap string string) (emails : list string)
    : list string :=
  filter (fun email => is_Some (existing_members !! email)) emails.
(** * Properties *)

(** ** The monad *)

Lemma bind_Return {W A B} (m : Py.M W A) (k : A -> Py.M W B) s a s' :
  m s = (Py.Return a, s') -> (m ≫= k) s = k a s'.
Proof. intros H. unfold mbind, M_bind, Py.bind. by rewrite H. Qed.

Lemma bind_Raise {W A B} (m : Py.M W A) (k : A -> Py.M W B) s e s' :
  m s = (Py.Raise e, s') -> (m ≫= k) s = (Py.Raise e, s').
Proof. intros H. unfold mbind, M_bind, Py.bind. by rewrite H. Qed.

Lemma try_except_Return {W A} (body : Py.M W A) handler s a s' :
  body s = (Py.Return a, s') -> Py.try_except body handler s = (Py.Return a, s').
Proof. intros H. unfold Py.try_except. by rewrite H. Qed.

Lemma try_except_caught {W A} (body : Py.M W A) handler s e s' h :
  body s = (Py.Raise e, s') -> handler e = Some h ->
  Py.try_except body handler s = h s'.
Proof. intros H Hh. unfold Py.try_except. by rewrite H, Hh. Qed.

Lemma try_except_uncaught {W A} (body : Py.M W A) handler s e s' :
  body s = (Py.Raise e, s') -> handler e = None ->
  Py.try_except body handler s = (Py.Raise e, s').
Proof. intros H Hh. unfold Py.try_except. by rewrite H, Hh. Qed.

(** ** [QueriesLabel] *)

Section QueriesLabel_properties.

Context {W Dict Client CocoAnnotationModifier AssetFilterKwargs : Type}.
Variable validate_category_search_query : string -> Py.M W unit.
Variable disable_tqdm_if_as_generator : bool -> bool -> Py.M W bool.
Variable LabelQuery :
  Client -> LabelWhere.t -> list string -> QueryOptions.t -> Py.generator W Dict.

Abbreviation labels :=
  (QueriesLabel.labels validate_category_search_query disable_tqdm_if_as_generator
     LabelQuery).
Abbreviation predictions :=
  (QueriesLabel.predictions validate_category_search_query disable_tqdm_if_as_generator
     LabelQuery).
Abbreviation inferences :=
  (QueriesLabel.inferences validate_category_search_query disable_tqdm_if_as_generator
     LabelQuery).

(** [labels] asks for nothing when the category search is refused. *)
Lemma labels_refused_category_search (self : QueriesLabel.self_t) (a : LabelsArgs.t)
    (s s' : Py.state W) (e : Py.exn) :
  Py.if_truthy (LabelsArgs.category_search a) validate_category_search_query s
    = (Py.Raise e, s') ->
  labels self a s = (Py.Raise e, s').
Proof. intros H. unfold QueriesLabel.labels. by erewrite bind_Raise. Qed.

(** As a generator, [labels] returns the query of [LabelQuery] untouched:
    its [where] repeats the arguments, [type_in] among them. *)
Lemma labels_as_generator (self : QueriesLabel.self_t) (a : LabelsArgs.t)
    (s s1 s2 : Py.state W) (disable_tqdm : bool) :
  LabelsArgs.as_generator a = true ->
  Py.if_truthy (LabelsArgs.category_search a) validate_category_search_query s
    = (Py.Return tt, s1) ->
  disable_tqdm_if_as_generator true (LabelsArgs.disable_tqdm a) s1
    = (Py.Return disable_tqdm, s2) ->
  exists where_,
    labels self a s
    = (Py.Return
         (QueriesLabel.a_generator
            (LabelQuery (QueriesLabel.client (QueriesLabel.auth self)) where_
               (LabelsArgs.fields a)
               (QueryOptions.mk disable_tqdm (LabelsArgs.first a) (LabelsArgs.skip a)))),
       s2)
    /\ LabelWhere.project_id where_ = LabelsArgs.project_id a
    /\ LabelWhere.type_in where_ = LabelsArgs.type_in a
    /\ LabelWhere.category_search where_ = LabelsArgs.category_search a.
Proof.
  intros Hgen Hvalid Htqdm. eexists. split.
  - unfold QueriesLabel.labels. rewrite Hgen.
    erewrite bind_Return; [|exact Hvalid]. erewrite bind_Return; [|exact Htqdm].
    reflexivity.
  - by cbn.
Qed.

(** C9. For every set of query parameters [a], [predictions] is [labels] with
    the same parameters and [type_in=["PREDICTION"]], [inferences] is [labels]
    with the same parameters and [type_in=["INFERENCE"]]; [fields] is passed
    on when given and otherwise is a default list, which is the default of
    [labels] with [modelName] in the place of [secondsToLabel]. *)
Theorem predictions_inferences_are_labels_of_a_type
    (self : QueriesLabel.self_t) (a : TypedLabelsArgs.t) :
  let typed_default :=
    ["author.email"; "author.id"; "id"; "jsonResponse"; "labelType"; "modelName"] in
  let fields := default typed_default (TypedLabelsArgs.fields a) in
  predictions self a = labels self (labels_with_type_in a fields ["PREDICTION"])
  /\ inferences self a = labels self (labels_with_type_in a fields ["INFERENCE"])
  /\ typed_default = model_name_for_seconds_to_label QueriesLabel.labels_default_fields.
Proof.
  unfold QueriesLabel.predictions, QueriesLabel.inferences, labels_with_type_in.
  destruct (TypedLabelsArgs.fields a) as [fields|]; cbn [default from_option id];
    repeat split; reflexivity.
Qed.

End QueriesLabel_properties.

Section export_labels_properties.

Context {W Dict Client CocoAnnotationModifier AssetFilterKwargs : Type}.
Variable infer_ids_from_external_ids :
  @QueriesLabel.KiliAuth Client -> list string -> string -> Py.M W (gmap string string).
Variable services_export_labels :
  @QueriesLabel.KiliAuth Client ->
  @QueriesLabel.ExportKwargs CocoAnnotationModifier AssetFilterKwargs -> Py.M W unit.

Abbreviation resolve_asset_ids :=
  (QueriesLabel.resolve_asset_ids infer_ids_from_external_ids).
Abbreviation export_labels :=
  (QueriesLabel.export_labels infer_ids_from_external_ids services_export_labels).

(** The comprehension [[id_map[id] for id in external_ids]] returns the
    images of the external ids, in their order, when each has one. *)
Lemma mapM_getitem_images (id_map : gmap string string) (external_ids ids : list string)
    (s : Py.state W) :
  Forall2 (fun e i => id_map !! e = Some i) external_ids ids ->
  mapM (QueriesLabel.getitem id_map) external_ids s = (Py.Return ids, s).
Proof.
  induction 1 as [|e i es is_ He _ IH]; [reflexivity|].
  cbn [mapM]. erewrite bind_Return; [|unfold QueriesLabel.getitem; by rewrite He].
  erewrite bind_Return; [|exact IH]. reflexivity.
Qed.

(** It raises [KeyError] for the first external id that has no image. *)
Lemma mapM_getitem_missing (id_map : gmap string string)
    (found : list string) (ids : list string) (e : string) (rest : list string)
    (s : Py.state W) :
  Forall2 (fun e i => id_map !! e = Some i) found ids ->
  id_map !! e = None ->
  mapM (M := Py.M W) (QueriesLabel.getitem id_map) (found ++ e :: rest) s
  = (Py.Raise (Py.KeyError e), s).
Proof.
  intros Hfound He. induction Hfound as [|e' i es is_ He' _ IH]; cbn [app mapM].
  - erewrite bind_Raise; [reflexivity|]. unfold QueriesLabel.getitem. by rewrite He.
  - erewrite bind_Return; [|unfold QueriesLabel.getitem; by rewrite He'].
    erewrite bind_Raise; [reflexivity|exact IH].
Qed.

(** C10. With [asset_ids=None] and [external_ids] given, the export service
    is called with the images of the external ids under the map
    [infer_ids_from_external_ids] returned, in the order of [external_ids];
    with [asset_ids] given, the service is called with it, whatever
    [external_ids] is, and the map is not asked for. *)
Theorem export_labels_asset_ids_passed_to_service
    (self : QueriesLabel.self_t) (project_id filename : string) (fmt : LabelFormat)
    (layout : SplitOption) (single_file disable_tqdm with_assets : bool)
    (annotation_modifier : option CocoAnnotationModifier)
    (asset_filter_kwargs : option AssetFilterKwargs) (s : Py.state W) :
  let service_called_with asset_ids :=
    Py.try_except
      (services_export_labels (QueriesLabel.auth self) {|
         QueriesLabel.kw_asset_ids := asset_ids;
         QueriesLabel.kw_project_id := project_id;
         QueriesLabel.kw_export_type := "latest";
         QueriesLabel.kw_label_format := fmt;
         QueriesLabel.kw_split_option := layout;
         QueriesLabel.kw_single_file := single_file;
         QueriesLabel.kw_output_file := filename;
         QueriesLabel.kw_disable_tqdm := disable_tqdm;
         QueriesLabel.kw_log_level := "WARNING";
         QueriesLabel.kw_with_assets := with_assets;
         QueriesLabel.kw_annotation_modifier := annotation_modifier;
         QueriesLabel.kw_asset_filter_kwargs := asset_filter_kwargs;
       |})
      QueriesLabel.except_NoCompatibleJobError in
  (forall (external_ids ids : list string) (id_map : gmap string string) (s1 : Py.state W),
      infer_ids_from_external_ids (QueriesLabel.auth self) external_ids project_id s
        = (Py.Return id_map, s1) ->
      Forall2 (fun e i => id_map !! e = Some i) external_ids ids ->
      export_labels self project_id filename fmt None layout single_file disable_tqdm
        with_assets (Some external_ids) annotation_modifier asset_filter_kwargs s
      = service_called_with (Some ids) s1)
  /\ (forall (asset_ids : list string) (external_ids : option (list string)),
      export_labels self project_id filename fmt (Some asset_ids) layout single_file
        disable_tqdm with_assets external_ids annotation_modifier asset_filter_kwargs s
      = service_called_with (Some asset_ids) s).
Proof.
  cbv zeta. split.
  - intros external_ids ids id_map s1 Hmap Himages.
    unfold QueriesLabel.export_labels.
    erewrite bind_Return; [reflexivity|].
    unfold QueriesLabel.resolve_asset_ids.
    erewrite bind_Return; [|exact Hmap].
    erewrite bind_Return; [reflexivity|].
    by apply mapM_getitem_images.
  - intros asset_ids external_ids.
    unfold QueriesLabel.export_labels.
    erewrite bind_Return; [reflexivity|].
    unfold QueriesLabel.resolve_asset_ids. by destruct external_ids.
Qed.

(** An external id with no image: [KeyError], and the service is not
    called. *)
Lemma export_labels_unknown_external_id
    (self : QueriesLabel.self_t) (project_id filename : string) (fmt : LabelFormat)
    (layout : SplitOption) (single_file disable_tqdm with_assets : bool)
    (annotation_modifier : option CocoAnnotationModifier)
    (asset_filter_kwargs : option AssetFilterKwargs) (s s1 : Py.state W)
    (id_map : gmap string string) (found ids rest : list string) (e : string) :
  infer_ids_from_external_ids (QueriesLabel.auth self) (found ++ e :: rest) project_id s
    = (Py.Return id_map, s1) ->
  Forall2 (fun e i => id_map !! e = Some i) found ids ->
  id_map !! e = None ->
  export_labels self project_id filename fmt None layout single_file disable_tqdm
    with_assets (Some (found ++ e :: rest)) annotation_modifier asset_filter_kwargs s
  = (Py.Raise (Py.KeyError e), s1).
Proof.
  intros Hmap Hfound He. unfold QueriesLabel.export_labels.
  erewrite bind_Raise; [reflexivity|].
  unfold QueriesLabel.resolve_asset_ids.
  erewrite bind_Return; [|exact Hmap].
  erewrite bind_Raise; [reflexivity|]. by eapply mapM_getitem_missing.
Qed.

(** Any exception of the service other than [NoCompatibleJobError] leaves
    [export_labels]. *)
Lemma export_labels_other_exception_propagates
    (self : QueriesLabel.self_t) (project_id filename : string) (fmt : LabelFormat)
    (asset_ids : option (list string)) (layout : SplitOption)
    (single_file disable_tqdm with_assets : bool) (external_ids : option (list string))
    (annotation_modifier : option CocoAnnotationModifier)
    (asset_filter_kwargs : option AssetFilterKwargs) (s s1 s2 : Py.state W)
    (resolved : option (list string)) (e : Py.exn) :
  resolve_asset_ids self project_id asset_ids external_ids s = (Py.Return resolved, s1) ->
  services_export_labels (QueriesLabel.auth self) {|
      QueriesLabel.kw_asset_ids := resolved;
      QueriesLabel.kw_project_id := project_id;
      QueriesLabel.kw_export_type := "latest";
      QueriesLabel.kw_label_format := fmt;
      QueriesLabel.kw_split_option := layout;
      QueriesLabel.kw_single_file := single_file;
      QueriesLabel.kw_output_file := filename;
      QueriesLabel.kw_disable_tqdm := disable_tqdm;
      QueriesLabel.kw_log_level := "WARNING";
      QueriesLabel.kw_with_assets := with_assets;
      QueriesLabel.kw_annotation_modifier := annotation_modifier;
      QueriesLabel.kw_asset_filter_kwargs := asset_filter_kwargs;
    |} s1 = (Py.Raise e, s2) ->
  (forall msg, e <> Py.NoCompatibleJobError msg) ->
  export_labels self project_id filename fmt asset_ids layout single_file disable_tqdm
    with_assets external_ids annotation_modifier asset_filter_kwargs s
  = (Py.Raise e, s2).
Proof.
  intros Hids Hraise He. unfold QueriesLabel.export_labels.
  erewrite bind_Return; [|exact Hids].
  erewrite try_except_uncaught; [reflexivity|exact Hraise|].
  destruct e; try reflexivity. by destruct (He msg).
Qed.

End export_labels_properties.

(** With [car_2] and [car_1] asked for, the service receives their ids in
    that order. *)
Lemma export_labels_asset_ids_passed_to_service_witness :
  QueriesLabel.export_labels Fake.infer_ids_from_external_ids
    Fake.services_export_labels_echo Fake.self "object_detection" "export.zip" yolo_v5
    None split false true true (Some ["car_2"; "car_1"]) None None Fake.s0
  = (Py.Return tt, Py.State ["clb0car2"; "clb0car1"] tt).
Proof.
  etransitivity.
  - eapply (proj1 (export_labels_asset_ids_passed_to_service
                     Fake.infer_ids_from_external_ids Fake.services_export_labels_echo
                     Fake.self "object_detection" "export.zip" yolo_v5 split false true
                     true None None Fake.s0)
              ["car_2"; "car_1"] ["clb0car2"; "clb0car1"] Fake.id_map Fake.s0).
    + reflexivity.
    + repeat constructor.
  - reflexivity.
Defined.

(** ** [NoCompatibleJobError] at the two entry points *)

(** C7, amended for the SDK method. When the export service raises
    [NoCompatibleJobError], the [export] command catches it, prints its
    message and returns (exit status 0); the SDK method
    [QueriesLabel.export_labels] catches it and prints its message in the
    same way, and returns: its caller receives no exception. *)
Theorem NoCompatibleJobError_is_caught_and_printed
    {W Kili Client CocoAnnotationModifier AssetFilterKwargs : Type}
    (get_kili_client : option string -> option string -> Py.M W Kili)
    (cli_services_export_labels : Kili -> Cli.ExportKwargs -> Py.M W unit)
    (infer_ids_from_external_ids :
       @QueriesLabel.KiliAuth Client -> list string -> string ->
       Py.M W (gmap string string))
    (services_export_labels :
       @QueriesLabel.KiliAuth Client ->
       @QueriesLabel.ExportKwargs CocoAnnotationModifier AssetFilterKwargs ->
       Py.M W unit) :
  (forall output_format output_file layout api_key endpoint project_id verbose
          (s s1 s2 : Py.state W) kili msg,
      get_kili_client api_key endpoint s = (Py.Return kili, s1) ->
      cli_services_export_labels kili {|
          Cli.kw_asset_ids := None;
          Cli.kw_project_id := project_id;
          Cli.kw_export_type := "latest";
          Cli.kw_label_format := output_format;
          Cli.kw_split_option := layout;
          Cli.kw_output_file := output_file;
          Cli.kw_disable_tqdm := negb verbose;
          Cli.kw_log_level := if verbose then "INFO" else "WARNING";
        |} s1 = (Py.Raise (Py.NoCompatibleJobError msg), s2) ->
      let run :=
        Cli.export_labels get_kili_client cli_services_export_labels output_format
          output_file layout api_key endpoint project_id verbose s in
      run = (Py.Return tt, Py.State (Py.stdout s2 ++ [msg]) (Py.world s2))
      /\ Cli.exit_status run.1 = 0%Z)
  /\ (forall self project_id filename fmt asset_ids layout single_file disable_tqdm
            with_assets external_ids annotation_modifier asset_filter_kwargs
            (s s1 s2 : Py.state W) resolved msg,
      QueriesLabel.resolve_asset_ids infer_ids_from_external_ids self project_id
        asset_ids external_ids s = (Py.Return resolved, s1) ->
      services_export_labels (QueriesLabel.auth self) {|
          QueriesLabel.kw_asset_ids := resolved;
          QueriesLabel.kw_project_id := project_id;
          QueriesLabel.kw_export_type := "latest";
          QueriesLabel.kw_label_format := fmt;
          QueriesLabel.kw_split_option := layout;
          QueriesLabel.kw_single_file := single_file;
          QueriesLabel.kw_output_file := filename;
          QueriesLabel.kw_disable_tqdm := disable_tqdm;
          QueriesLabel.kw_log_level := "WARNING";
          QueriesLabel.kw_with_assets := with_assets;
          QueriesLabel.kw_annotation_modifier := annotation_modifier;
          QueriesLabel.kw_asset_filter_kwargs := asset_filter_kwargs;
        |} s1 = (Py.Raise (Py.NoCompatibleJobError msg), s2) ->
      QueriesLabel.export_labels infer_ids_from_external_ids services_export_labels
        self project_id filename fmt asset_ids layout single_file disable_tqdm
        with_assets external_ids annotation_modifier asset_filter_kwargs s
      = (Py.Return tt, Py.State (Py.stdout s2 ++ [msg]) (Py.world s2))).
Proof.
  split.
  - intros * Hclient Hraise. cbv zeta.
    assert (Cli.export_labels get_kili_client cli_services_export_labels output_format
              output_file layout api_key endpoint project_id verbose s
            = (Py.Return tt, Py.State (Py.stdout s2 ++ [msg]) (Py.world s2))) as ->.
    { unfold Cli.export_labels. erewrite bind_Return; [|exact Hclient].
      erewrite try_except_caught; [|exact Hraise|reflexivity]. reflexivity. }
    split; reflexivity.
  - intros * Hids Hraise.
    unfold QueriesLabel.export_labels. erewrite bind_Return; [|exact Hids].
    erewrite try_except_caught; [|exact Hraise|reflexivity]. reflexivity.
Qed.

(** Any other exception of the service leaves the command, which then exits
    with a status other than 0. *)
Lemma cli_other_exception_propagates {W Kili : Type}
    (get_kili_client : option string -> option string -> Py.M W Kili)
    (services_export_labels : Kili -> Cli.ExportKwargs -> Py.M W unit)
    output_format output_file layout api_key endpoint project_id verbose
    (s s1 s2 : Py.state W) kili (e : Py.exn) :
  get_kili_client api_key endpoint s = (Py.Return kili, s1) ->
  services_export_labels kili {|
      Cli.kw_asset_ids := None;
      Cli.kw_project_id := project_id;
      Cli.kw_export_type := "latest";
      Cli.kw_label_format := output_format;
      Cli.kw_split_option := layout;
      Cli.kw_output_file := output_file;
      Cli.kw_disable_tqdm := negb verbose;
      Cli.kw_log_level := if verbose then "INFO" else "WARNING";
    |} s1 = (Py.Raise e, s2) ->
  (forall msg, e <> Py.NoCompatibleJobError msg) ->
  Cli.export_labels get_kili_client services_export_labels output_format output_file
    layout api_key endpoint project_id verbose s = (Py.Raise e, s2)
  /\ Cli.exit_status
       (Cli.export_labels get_kili_client services_export_labels output_format
          output_file layout api_key endpoint project_id verbose s).1 <> 0%Z.
Proof.
  intros Hclient Hraise He.
  assert (Cli.export_labels get_kili_client services_export_labels output_format
            output_file layout api_key endpoint project_id verbose s
          = (Py.Raise e, s2)) as ->.
  { unfold Cli.export_labels. erewrite bind_Return; [|exact Hclient].
    erewrite try_except_uncaught; [reflexivity|exact Hraise|].
    destruct e; try reflexivity. by destruct (He msg). }
  split; [reflexivity|]. cbn. discriminate.
Qed.

(** The command and the method on a project with no compatible job: both
    print the message and return. *)
Lemma NoCompatibleJobError_is_caught_and_printed_witness :
  Cli.export_labels Fake.get_kili_client Fake.cli_services_export_labels_no_job
    yolo_v4 "export.zip" merged None None "text_classification" false Fake.s0
  = (Py.Return tt, Py.State [Fake.no_compatible_job_message] tt)
  /\ QueriesLabel.export_labels Fake.infer_ids_from_external_ids
       Fake.services_export_labels_no_job Fake.self "text_classification" "export.zip"
       yolo_v4 None merged false true true None None None Fake.s0
     = (Py.Return tt, Py.State [Fake.no_compatible_job_message] tt).
Proof.
  pose proof (NoCompatibleJobError_is_caught_and_printed
                Fake.get_kili_client Fake.cli_services_export_labels_no_job
                Fake.infer_ids_from_external_ids Fake.services_export_labels_no_job)
    as [Hcli Hsdk].
  split.
  - eapply (proj1 (Hcli yolo_v4 "export.zip" merged None None "text_classification"
                     false Fake.s0 Fake.s0 Fake.s0 tt Fake.no_compatible_job_message
                     eq_refl eq_refl)).
  - exact (Hsdk Fake.self "text_classification" "export.zip" yolo_v4 None merged false
             true true None None None Fake.s0 Fake.s0 Fake.s0 None
             Fake.no_compatible_job_message eq_refl eq_refl).
Defined.

(** C7, as stated, fails: the export service raises [NoCompatibleJobError],
    and the caller of the SDK method gets a normal return with the message
    printed, not an exception. *)
Lemma sdk_export_labels_returns_on_NoCompatibleJobError :
  Fake.services_export_labels_no_job Fake.auth {|
      QueriesLabel.kw_asset_ids := None;
      QueriesLabel.kw_project_id := "text_classification";
      QueriesLabel.kw_export_type := "latest";
      QueriesLabel.kw_label_format := yolo_v4;
      QueriesLabel.kw_split_option := merged;
      QueriesLabel.kw_single_file := false;
      QueriesLabel.kw_output_file := "export.zip";
      QueriesLabel.kw_disable_tqdm := true;
      QueriesLabel.kw_log_level := "WARNING";
      QueriesLabel.kw_with_assets := true;
      QueriesLabel.kw_annotation_modifier := None;
      QueriesLabel.kw_asset_filter_kwargs := None;
    |} Fake.s0
  = (Py.Raise (Py.NoCompatibleJobError Fake.no_compatible_job_message), Fake.s0)
  /\ QueriesLabel.export_labels Fake.infer_ids_from_external_ids
       Fake.services_export_labels_no_job Fake.self "text_classification" "export.zip"
       yolo_v4 None merged false true true None None None Fake.s0
     = (Py.Return tt, Py.State [Fake.no_compatible_job_message] tt)
  /\ (forall e,
        (QueriesLabel.export_labels Fake.infer_ids_from_external_ids
           Fake.services_export_labels_no_job Fake.self "text_classification"
           "export.zip" yolo_v4 None merged false true true None None None Fake.s0).1
        <> Py.Raise e).
Proof. repeat split. intros e H. discriminate H. Qed.

(** ** The YOLO asset processor *)

(** Appending on the right is injective, as [String.app_inj] is on the left. *)
Lemma string_app_length (s t : string) :
  String.length (s +:+ t) = String.length s + String.length t.
Proof. induction s as [|c s IH]; [reflexivity|]. cbn. by rewrite <- IH. Qed.

Lemma string_app_assoc (s t u : string) : (s +:+ t) +:+ u = s +:+ (t +:+ u).
Proof.
  induction s as [|c s IH]; [reflexivity|].
  change (String c ((s +:+ t) +:+ u) = String c (s +:+ (t +:+ u))). by rewrite IH.
Qed.

Lemma string_app_inj_r (t s1 s2 : string) : s1 +:+ t = s2 +:+ t -> s1 = s2.
Proof.
  revert s2. induction s1 as [|c1 s1 IH]; intros [|c2 s2] H.
  - reflexivity.
  - apply (f_equal String.length) in H. rewrite !string_app_length in H.
    cbn in H. lia.
  - apply (f_equal String.length) in H. rewrite !string_app_length in H.
    cbn in H. lia.
  - change (String c1 (s1 +:+ t) = String c2 (s2 +:+ t)) in H.
    injection H as -> H. f_equal. by apply IH.
Qed.

Section Yolo_properties.

Context {Label YoloLine Bytes : Type}.
Variable _convert_from_kili_to_yolo_format :
  string -> Label -> list Yolo.JobCategory -> list YoloLine.
Variable asset : @Yolo.Asset Label.
Variable category_ids : list Yolo.JobCategory.
Variable content_repository : @Yolo.ContentRepository Bytes.

Abbreviation frame_labels := (Yolo.frame_labels _convert_from_kili_to_yolo_format).
Abbreviation process_frame := (Yolo.process_frame _convert_from_kili_to_yolo_format).
Abbreviation process_frames := (Yolo.process_frames _convert_from_kili_to_yolo_format).
Abbreviation _process_asset := (Yolo._process_asset _convert_from_kili_to_yolo_format).

Abbreviation frame_identifier := (Yolo.frame_identifier asset).
Abbreviation frame_label_file := (Yolo.frame_label_file asset).

Lemma frame_label_file_inj : Inj (=) (=) frame_label_file.
Proof.
  intros i j H. unfold Yolo.frame_label_file, Yolo.frame_identifier in H.
  apply string_app_inj_r in H. do 2 apply String.app_inj in H.
  by apply (inj pretty).
Qed.

Lemma frame_label_file_not_whole_video (i : nat) :
  frame_label_file i <> Yolo.externalId asset +:+ ".txt".
Proof.
  unfold Yolo.frame_label_file, Yolo.frame_identifier. intros H.
  rewrite string_app_assoc in H. apply String.app_inj in H.
  discriminate H.
Qed.

(** One labeled frame: one label file; one row, or the content embedded. *)
Lemma process_frame_labeled (filename : string) (label : Label)
    (acc : @Yolo.Processed YoloLine Bytes) :
  frame_labels label category_ids <> [] ->
  let r := process_frame asset filename label category_ids content_repository acc in
  Yolo.video_filenames r = Yolo.video_filenames acc
  /\ Yolo.asset_remote_content r
     = Yolo.asset_remote_content acc
       ++ (if Yolo.is_serving content_repository (Yolo.content asset) then []
           else [Yolo.remote_content_row asset filename])
  /\ Yolo.labels_folder r
     = <[filename +:+ ".txt" := frame_labels label category_ids]> (Yolo.labels_folder acc).
Proof.
  intros Hlabeled. cbv zeta. unfold Yolo.process_frame.
  destruct (frame_labels label category_ids) as [|line lines]; [done|].
  destruct (Yolo.is_serving content_repository (Yolo.content asset)); cbn;
    by rewrite ?app_nil_r.
Qed.

(** The frames from index [idx] on, all labeled. *)
Lemma process_frames_labeled (frames : list Label) :
  Forall (fun frame => frame_labels frame category_ids <> []) frames ->
  forall (idx : nat) (acc : @Yolo.Processed YoloLine Bytes),
  let r := process_frames asset idx frames category_ids content_repository acc in
  let indices := seq (idx + 1) (length frames) in
  Yolo.video_filenames r = Yolo.video_filenames acc ++ (frame_identifier <$> indices)
  /\ Yolo.asset_remote_content r
     = Yolo.asset_remote_content acc
       ++ (if Yolo.is_serving content_repository (Yolo.content asset) then []
           else (fun i => Yolo.remote_content_row asset (frame_identifier i)) <$> indices)
  /\ dom (Yolo.labels_folder r)
     = dom (Yolo.labels_folder acc) ∪ list_to_set (frame_label_file <$> indices).
Proof.
  intros Hlabeled.
  induction Hlabeled as [|frame frames Hframe Hframes IH]; intros idx acc; cbv zeta.
  - cbn.
    destruct (Yolo.is_serving content_repository (Yolo.content asset));
      rewrite !app_nil_r; repeat split; by rewrite (right_id_L ∅ (∪)).
  - cbn [Yolo.process_frames length seq fmap list_fmap].
    match goal with
    | |- context [process_frames _ _ _ _ _ (process_frame _ ?f _ _ _ ?a)] =>
        destruct (IH (S idx) (process_frame asset f frame category_ids
                                content_repository a))
          as (Hnames & Hrows & Hdom);
        destruct (process_frame_labeled f frame a Hframe) as (Hnames1 & Hrows1 & Hfolder1)
    end.
    change (S idx + 1) with (S (idx + 1)) in *.
    rewrite Hnames, Hrows, Hdom, Hnames1, Hrows1, Hfolder1. cbn.
    rewrite <- !app_assoc. split; [done|]. split.
    + by destruct (Yolo.is_serving content_repository (Yolo.content asset)).
    + rewrite dom_insert_L, (comm_L (∪) {[_]} (dom _)), <- (assoc_L (∪)).
      reflexivity.
Qed.


End Yolo_properties.



(** ** The layout of the archive *)

Lemma app_singleton_eq {A} (root : list A) (x y : A) :
  root ++ [x] = [y] -> root = [] /\ x = y.
Proof.
  destruct root as [|a root]; cbn; intros H; [by simplify_eq|].
  injection H as _ H. by destruct root.
Qed.

Lemma app_singleton_eq_2 {A} (root : list A) (x a b : A) :
  root ++ [x] = [a; b] -> root = [a] /\ x = b.
Proof.
  destruct root as [|a' root]; cbn; intros H; [discriminate H|].
  injection H as -> H. apply app_singleton_eq in H as [-> ->]. done.
Qed.

Section archive_properties.

Context {Label YoloLine Bytes : Type}.
Variable _convert_from_kili_to_yolo_format :
  string -> Label -> list Yolo.JobCategory -> list YoloLine.
Variable single_file_manifest :
  LabelFormat -> list ServicesExport.Job -> list ServicesExport.entry.
Variable assets : list (@Yolo.Asset Label).
Variable content_repository : @Yolo.ContentRepository Bytes.

Abbreviation labels_directory :=
  (ServicesExport.labels_directory _convert_from_kili_to_yolo_format).
Abbreviation labels_entries :=
  (ServicesExport.labels_entries _convert_from_kili_to_yolo_format single_file_manifest).
Abbreviation content_entries :=
  (ServicesExport.content_entries _convert_from_kili_to_yolo_format).
Abbreviation archive :=
  (ServicesExport.archive _convert_from_kili_to_yolo_format single_file_manifest).
Abbreviation export_labels :=
  (ServicesExport.export_labels _convert_from_kili_to_yolo_format single_file_manifest).

(** The only directory entry of a [labels] directory is the directory. *)
Lemma Dir_in_labels_directory root fmt jobs path :
  ServicesExport.Dir path ∈ labels_directory root fmt jobs assets content_repository
  <-> path = root ++ ["labels"].
Proof.
  unfold ServicesExport.labels_directory.
  rewrite elem_of_cons, elem_of_app, list_elem_of_fmap. split.
  - intros [H|[(f & H & _)|H]]; [by simplify_eq|discriminate H|].
    destruct (ServicesExport.class_file fmt); [|by apply elem_of_nil in H].
    apply list_elem_of_singleton in H. discriminate H.
  - intros ->. by left.
Qed.

(** The directories of the content part. *)
Lemma Dir_in_content_entries fmt layout jobs path :
  ServicesExport.Dir path ∈ content_entries fmt layout jobs assets content_repository ->
  path = ["images"] \/ path = ["data"].
Proof.
  unfold ServicesExport.content_entries.
  destruct fmt; rewrite ?elem_of_cons, ?elem_of_app, ?list_elem_of_fmap;
    try (intros [H|[H|(f & H & _)]]; [by simplify_eq; auto| |discriminate H];
         case_bool_decide; [apply list_elem_of_singleton in H; discriminate H
                           |by apply elem_of_nil in H]).
  - intros [H|(a & H & _)]; [by simplify_eq; auto|discriminate H].
  - intros H. by apply elem_of_nil in H.
Qed.

(** The directories of the content part of a COCO archive. *)
Lemma Dir_in_content_entries_coco layout jobs path :
  ServicesExport.Dir path ∈ content_entries coco layout jobs assets content_repository
  <-> path = ["data"].
Proof.
  unfold ServicesExport.content_entries.
  rewrite elem_of_cons, list_elem_of_fmap. split.
  - intros [H|(a & H & _)]; [by simplify_eq|discriminate H].
  - intros ->. by left.
Qed.

(** The directories of the labels part, outside COCO and single-file mode,
    in the [split] layout: each job's directory and its [labels]. *)
Lemma Dir_in_labels_entries_split fmt jobs path :
  fmt <> coco ->
  ServicesExport.Dir path
    ∈ labels_entries fmt split false jobs assets content_repository
  <-> exists job, job ∈ jobs
        /\ (path = [ServicesExport.name job] \/ path = [ServicesExport.name job; "labels"]).
Proof.
  intros Hfmt.
  assert (labels_entries fmt split false jobs assets content_repository
          = (job ← jobs;
             ServicesExport.Dir [ServicesExport.name job]
             :: labels_directory [ServicesExport.name job] fmt [job] assets
                  content_repository)) as ->.
  { by destruct fmt. }
  rewrite list_elem_of_bind. split.
  - intros (job & H & Hjob). exists job. split; [done|].
    apply elem_of_cons in H as [H|H]; [left; by simplify_eq|right].
    by apply Dir_in_labels_directory in H.
  - intros (job & Hjob & [-> | ->]); exists job; (split; [|done]).
    + by left.
    + right. by apply Dir_in_labels_directory.
Qed.

(** The same in the [merged] layout: the one [labels] directory. *)
Lemma Dir_in_labels_entries_merged fmt jobs path :
  fmt <> coco ->
  ServicesExport.Dir path
    ∈ labels_entries fmt merged false jobs assets content_repository
  <-> path = ["labels"].
Proof.
  intros Hfmt.
  assert (labels_entries fmt merged false jobs assets content_repository
          = labels_directory [] fmt jobs assets content_repository) as ->.
  { by destruct fmt. }
  apply Dir_in_labels_directory.
Qed.

(** For COCO, outside single-file mode: each job's directory, with its
    [labels.json]. *)
Lemma in_labels_entries_coco layout jobs e :
  e ∈ labels_entries coco layout false jobs assets content_repository
  <-> exists job, job ∈ jobs
        /\ (e = ServicesExport.Dir [ServicesExport.name job]
            \/ e = ServicesExport.File [ServicesExport.name job; "labels.json"]).
Proof.
  unfold ServicesExport.labels_entries. rewrite list_elem_of_bind.
  split; intros (job & H1 & H2); exists job.
  - split; [done|]. rewrite !elem_of_cons in H1.
    destruct H1 as [?|[?|H]]; [auto..|by apply elem_of_nil in H].
  - split; [|done]. rewrite !elem_of_cons. tauto.
Qed.

(** An export that leaves an archive passed both checks of the validator,
    and the archive is [archive]. *)
Lemma export_labels_Archive fmt layout single_file jobs A :
  export_labels fmt layout single_file jobs assets content_repository
    = ServicesExport.Archive A ->
  (single_file = true -> ServicesExport.supports_single_file fmt = true)
  /\ ServicesExport.compatible_jobs fmt jobs <> []
  /\ A = archive fmt layout single_file jobs assets content_repository.
Proof.
  unfold ServicesExport.export_labels.
  destruct single_file, (ServicesExport.supports_single_file fmt); cbn;
    try discriminate;
    destruct (ServicesExport.compatible_jobs fmt jobs) eqn:Hjobs; try discriminate;
    intros [= <-]; by rewrite ?Hjobs.
Qed.


End archive_properties.

(** *** The cases of [test_export_service] and [test_export_service_errors] *)

(** The model gives the expected tree of each case of the test. *)
Lemma test_export_service_passes :
  Forall (fun c => FakeKili.file_tree_result c.1.2 = Some c.2)
    TestExport.test_export_service_cases.
Proof.
  unfold TestExport.test_export_service_cases.
  repeat (apply Forall_cons; split; [vm_compute; reflexivity|]). constructor.
Qed.

(** And the expected error of each case of the other. *)
Lemma test_export_service_errors_passes :
  Forall (fun c => FakeKili.exported c.1.2 = ServicesExport.Refused c.2)
    TestExport.test_export_service_errors_cases.
Proof.
  unfold TestExport.test_export_service_errors_cases.
  repeat (apply Forall_cons; split; [vm_compute; reflexivity|]). constructor.
Qed.



(** * More properties of the embedded code *)

(** ** [labels] and [count_labels] *)

(** X1. A category search that is absent or the empty string is not
    validated: [labels] and [count_labels] do the same whatever the validator
    is, also one that refuses every search. *)
Theorem absent_or_empty_category_search_is_not_validated
    {W Dict Client : Type}
    (validate1 validate2 : string -> Py.M W unit)
    (disable_tqdm_if_as_generator : bool -> bool -> Py.M W bool)
    (LabelQuery :
       Client -> LabelWhere.t -> list string -> QueryOptions.t -> Py.generator W Dict)
    (LabelQuery_count : Client -> LabelWhere.t -> Py.M W Z)
    (self : QueriesLabel.self_t) (a : LabelsArgs.t) :
  LabelsArgs.category_search a = None \/ LabelsArgs.category_search a = Some "" ->
  QueriesLabel.labels validate1 disable_tqdm_if_as_generator LabelQuery self a
  = QueriesLabel.labels validate2 disable_tqdm_if_as_generator LabelQuery self a
  /\ QueriesLabelOther.count_labels validate1 LabelQuery_count self
       (count_labels_args_of a)
     = QueriesLabelOther.count_labels validate2 LabelQuery_count self
         (count_labels_args_of a).
Proof.
  intros H. unfold QueriesLabel.labels, QueriesLabelOther.count_labels. cbn.
  by destruct H as [-> | ->].
Qed.

Lemma absent_or_empty_category_search_is_not_validated_witness :
  QueriesLabel.labels FakeLabels.validate_refuse FakeLabels.disable_tqdm_if_as_generator
    FakeLabels.LabelQuery Fake.self (labels_args_of_project "p" (Some "") false) Fake.s0
  = (Py.Return (QueriesLabel.a_list ["label-1"; "label-2"; "label-3"]), Fake.s0).
Proof.
  rewrite (proj1 (absent_or_empty_category_search_is_not_validated
                    FakeLabels.validate_refuse FakeLabels.validate_accept
                    FakeLabels.disable_tqdm_if_as_generator FakeLabels.LabelQuery
                    FakeLabels.LabelQuery_count Fake.self
                    (labels_args_of_project "p" (Some "") false)
                    (or_intror eq_refl))).
  reflexivity.
Defined.

(** X2. A category search that the validator refuses: [labels] and
    [count_labels] raise the validator's exception in the state it left, and
    neither the query nor the count is run, whatever they would have done. *)
Theorem refused_category_search_stops_labels_and_count_labels
    {W Dict Client : Type}
    (validate_category_search_query : string -> Py.M W unit)
    (disable_tqdm_if_as_generator : bool -> bool -> Py.M W bool)
    (LabelQuery :
       Client -> LabelWhere.t -> list string -> QueryOptions.t -> Py.generator W Dict)
    (LabelQuery_count : Client -> LabelWhere.t -> Py.M W Z)
    (self : QueriesLabel.self_t) (a : LabelsArgs.t)
    (query : string) (e : Py.exn) (s s' : Py.state W) :
  LabelsArgs.category_search a = Some query -> query <> "" ->
  validate_category_search_query query s = (Py.Raise e, s') ->
  QueriesLabel.labels validate_category_search_query disable_tqdm_if_as_generator
    LabelQuery self a s = (Py.Raise e, s')
  /\ QueriesLabelOther.count_labels validate_category_search_query LabelQuery_count
       self (count_labels_args_of a) s = (Py.Raise e, s').
Proof.
  intros Hsearch Hquery Hraise.
  assert (Py.if_truthy (Some query) validate_category_search_query s = (Py.Raise e, s')).
  { destruct query; [done|exact Hraise]. }
  unfold QueriesLabel.labels, QueriesLabelOther.count_labels. cbn.
  rewrite Hsearch. split; by erewrite bind_Raise.
Qed.

Lemma refused_category_search_stops_labels_and_count_labels_witness :
  QueriesLabel.labels FakeLabels.validate_refuse FakeLabels.disable_tqdm_if_as_generator
    FakeLabels.LabelQuery Fake.self
    (labels_args_of_project "p" (Some "JOB.A.count >") false) Fake.s0
  = (Py.Raise (Py.OtherException "ValueError" "JOB.A.count >"), Fake.s0).
Proof.
  apply (proj1 (refused_category_search_stops_labels_and_count_labels
                  FakeLabels.validate_refuse FakeLabels.disable_tqdm_if_as_generator
                  FakeLabels.LabelQuery FakeLabels.LabelQuery_count Fake.self
                  (labels_args_of_project "p" (Some "JOB.A.count >") false)
                  "JOB.A.count >" (Py.OtherException "ValueError" "JOB.A.count >")
                  Fake.s0 Fake.s0 eq_refl ltac:(discriminate) eq_refl)).
Defined.

(** X3. [count_labels] counts what [labels] lists. With no [first] and no
    [skip], a helper [disable_tqdm_if_as_generator] that leaves the state
    alone, and a backend whose count for a filter is the number of labels
    its unbounded query for that filter returns: when [labels] returns a
    list, [count_labels] with the same filters returns its length. *)
Theorem count_labels_is_the_length_of_labels
    {W Dict Client : Type}
    (validate_category_search_query : string -> Py.M W unit)
    (disable_tqdm_if_as_generator : bool -> bool -> Py.M W bool)
    (LabelQuery :
       Client -> LabelWhere.t -> list string -> QueryOptions.t -> Py.generator W Dict)
    (LabelQuery_count : Client -> LabelWhere.t -> Py.M W Z)
    (self : QueriesLabel.self_t) (a : LabelsArgs.t)
    (s s' : Py.state W) (l : list Dict) :
  LabelsArgs.first a = None -> LabelsArgs.skip a = 0%Z ->
  (forall b1 b2 s, exists d, disable_tqdm_if_as_generator b1 b2 s = (Py.Return d, s)) ->
  (forall client where_ fields d s l s',
      LabelQuery client where_ fields (QueryOptions.mk d None 0) s = (Py.Return l, s') ->
      exists s'', LabelQuery_count client where_ s
                  = (Py.Return (Z.of_nat (length l)), s'')) ->
  QueriesLabel.labels validate_category_search_query disable_tqdm_if_as_generator
    LabelQuery self a s = (Py.Return (QueriesLabel.a_list l), s') ->
  exists s'',
    QueriesLabelOther.count_labels validate_category_search_query LabelQuery_count
      self (count_labels_args_of a) s = (Py.Return (Z.of_nat (length l)), s'').
Proof.
  intros Hfirst Hskip Hpure Hbackend Hlabels.
  unfold QueriesLabel.labels in Hlabels. cbn in Hlabels.
  rewrite Hfirst, Hskip in Hlabels.
  destruct (Py.if_truthy (LabelsArgs.category_search a)
              validate_category_search_query s) as [[[]|e] s1] eqn:Hvalid.
  2: { erewrite bind_Raise in Hlabels by exact Hvalid. discriminate Hlabels. }
  erewrite bind_Return in Hlabels by exact Hvalid.
  destruct (Hpure (LabelsArgs.as_generator a) (LabelsArgs.disable_tqdm a) s1)
    as [d Hd].
  erewrite bind_Return in Hlabels by exact Hd.
  destruct (LabelsArgs.as_generator a); [discriminate Hlabels|].
  unfold mbind, M_bind, Py.bind, Py.list_of in Hlabels.
  match type of Hlabels with
  | context [LabelQuery ?c ?w ?f ?o s1] =>
      destruct (LabelQuery c w f o s1) as [[l'|e] s2] eqn:Hquery
  end; [|discriminate Hlabels].
  injection Hlabels as -> ->.
  unfold QueriesLabelOther.count_labels. cbn.
  erewrite bind_Return by exact Hvalid.
  exact (Hbackend _ _ _ _ _ _ _ Hquery).
Qed.

Lemma count_labels_is_the_length_of_labels_witness :
  exists s'',
    QueriesLabelOther.count_labels FakeLabels.validate_accept FakeLabels.LabelQuery_count
      Fake.self (count_labels_args_of (labels_args_of_project "p" None false)) Fake.s0
    = (Py.Return 3%Z, s'').
Proof.
  apply (count_labels_is_the_length_of_labels
           FakeLabels.validate_accept FakeLabels.disable_tqdm_if_as_generator
           FakeLabels.LabelQuery FakeLabels.LabelQuery_count Fake.self
           (labels_args_of_project "p" None false) Fake.s0 Fake.s0
           ["label-1"; "label-2"; "label-3"] eq_refl eq_refl).
  - intros b1 b2 s. by exists (b1 || b2).
  - intros client where_ fields d s l s' H. exists s. injection H as <- _. reflexivity.
  - reflexivity.
Defined.

(** ** [export_labels_as_df] *)

Section export_labels_as_df_properties.

Context {W Client V AssetWhere DataFrame : Type}.
Variable services_get_project :
  @QueriesLabel.KiliAuth Client -> string -> list string -> Py.M W unit.
Variable AssetWhere_project_id : string -> AssetWhere.
Variable AssetQuery :
  Client -> AssetWhere -> list string -> QueryOptions.t ->
  Py.generator W (gmap string V).
Variable pd_DataFrame : list (gmap string V) -> DataFrame.
Variable QueryOptions_first_default : option Z.
Variable QueryOptions_skip_default : Z.
Variable iter_labels : V -> Py.result (list (gmap string V)).

Abbreviation labels_rows := (QueriesLabelOther.labels_rows iter_labels).
Abbreviation export_labels_as_df :=
  (QueriesLabelOther.export_labels_as_df services_get_project AssetWhere_project_id
     AssetQuery pd_DataFrame QueryOptions_first_default QueryOptions_skip_default
     iter_labels).

Abbreviation has_labels := (has_labels iter_labels).

Lemma labels_rows_ok (assets : list (gmap string V))
    (lss : list (list (gmap string V))) :
  Forall2 has_labels assets lss -> labels_rows assets = Py.Return (rows_of assets lss).
Proof.
  induction 1 as [|asset ls assets lss (v & Hv & Hls) _ IH]; [reflexivity|].
  cbn. unfold QueriesLabelOther.getitem_labels. by rewrite Hv, Hls, IH.
Qed.

Lemma labels_rows_missing before lss asset after :
  Forall2 has_labels before lss -> asset !! "labels" = None ->
  labels_rows (before ++ asset :: after) = Py.Raise (Py.KeyError "labels").
Proof.
  intros Hbefore Hasset.
  induction Hbefore as [|a ls before lss (v & Hv & Hls) _ IH]; cbn.
  - unfold QueriesLabelOther.getitem_labels. by rewrite Hasset.
  - unfold QueriesLabelOther.getitem_labels at 1. by rewrite Hv, Hls, IH.
Qed.

Lemma rows_of_length (assets : list (gmap string V))
    (lss : list (list (gmap string V))) :
  length assets = length lss -> length (rows_of assets lss) = sum_list (length <$> lss).
Proof.
  revert lss. induction assets as [|asset assets IH]; intros [|ls lss] H;
    try discriminate H; [reflexivity|].
  unfold rows_of in IH |- *. cbn. rewrite length_app, length_fmap. f_equal. apply IH.
  by injection H.
Qed.

(** X4. [export_labels_as_df] makes one row per label: when the project is
    found, the query returns [assets] and every asset has a list of labels,
    the data frame is made of the rows of the first asset, in the order of
    its labels, then those of the second, and so on; their number is the
    number of labels, so that an asset with no label has no row. *)
Theorem export_labels_as_df_has_one_row_per_label
    (self : QueriesLabel.self_t) (project_id : string)
    (fields asset_fields : list string) (s s1 s2 : Py.state W)
    (assets : list (gmap string V)) (lss : list (list (gmap string V))) :
  services_get_project (QueriesLabel.auth self) project_id ["id"] s = (Py.Return tt, s1) ->
  AssetQuery (QueriesLabel.client (QueriesLabel.auth self))
    (AssetWhere_project_id project_id)
    (asset_fields ++ ((fun field => "labels." +:+ field) <$> fields))
    (QueryOptions.mk false QueryOptions_first_default QueryOptions_skip_default) s1
  = (Py.Return assets, s2) ->
  Forall2 has_labels assets lss ->
  export_labels_as_df self project_id fields asset_fields s
  = (Py.Return (pd_DataFrame (rows_of assets lss)), s2)
  /\ length (rows_of assets lss) = sum_list (length <$> lss).
Proof.
  intros Hproject Hquery Hlabels. split.
  - unfold QueriesLabelOther.export_labels_as_df.
    erewrite bind_Return by exact Hproject.
    erewrite bind_Return by exact Hquery.
    by rewrite (labels_rows_ok _ _ Hlabels).
  - apply rows_of_length. by eapply Forall2_length.
Qed.

(** X5. [export_labels_as_df] raises [KeyError: 'labels'] when an asset of
    the query has no [labels] entry and the assets before it have theirs: no
    data frame is returned, whatever the assets after it are. *)
Theorem export_labels_as_df_asset_without_labels
    (self : QueriesLabel.self_t) (project_id : string)
    (fields asset_fields : list string) (s s1 s2 : Py.state W)
    (before after : list (gmap string V)) (asset : gmap string V)
    (lss : list (list (gmap string V))) :
  services_get_project (QueriesLabel.auth self) project_id ["id"] s = (Py.Return tt, s1) ->
  AssetQuery (QueriesLabel.client (QueriesLabel.auth self))
    (AssetWhere_project_id project_id)
    (asset_fields ++ ((fun field => "labels." +:+ field) <$> fields))
    (QueryOptions.mk false QueryOptions_first_default QueryOptions_skip_default) s1
  = (Py.Return (before ++ asset :: after), s2) ->
  Forall2 has_labels before lss ->
  asset !! "labels" = None ->
  (export_labels_as_df self project_id fields asset_fields s).1
  = Py.Raise (Py.KeyError "labels").
Proof.
  intros Hproject Hquery Hbefore Hasset.
  unfold QueriesLabelOther.export_labels_as_df.
  erewrite bind_Return by exact Hproject.
  erewrite bind_Return by exact Hquery.
  by rewrite (labels_rows_missing _ _ _ _ Hbefore Hasset).
Qed.

End export_labels_as_df_properties.

(** Two assets, the first with two labels and the second with none: two
    rows. *)
Lemma export_labels_as_df_has_one_row_per_label_witness :
  FakeAssets.export_labels_as_df [FakeAssets.car_1; FakeAssets.car_2] Fake.s0
  = (Py.Return
       (rows_of [FakeAssets.car_1; FakeAssets.car_2]
          [[ {[ "id" := "label-1" ]};
             {[ "id" := "label-2"; "asset_externalId" := "x" ]} ]; []]),
     Fake.s0)
  /\ length
       (rows_of [FakeAssets.car_1; FakeAssets.car_2]
          [[ ({[ "id" := "label-1" ]} : gmap string string);
             {[ "id" := "label-2"; "asset_externalId" := "x" ]} ]; []])
     = 2.
Proof.
  apply (export_labels_as_df_has_one_row_per_label
           FakeAssets.services_get_project (fun _ => tt)
           (FakeAssets.AssetQuery [FakeAssets.car_1; FakeAssets.car_2]) id None 0%Z
           FakeAssets.iter_labels Fake.self "object_detection"
           QueriesLabelOther.export_labels_as_df_default_fields
           QueriesLabelOther.export_labels_as_df_default_asset_fields
           Fake.s0 Fake.s0 Fake.s0 [FakeAssets.car_1; FakeAssets.car_2]
           [[ {[ "id" := "label-1" ]};
              {[ "id" := "label-2"; "asset_externalId" := "x" ]} ]; []]
           eq_refl eq_refl).
  repeat constructor; eexists; split; reflexivity.
Defined.

(** An asset without labels between two that have theirs. *)
Lemma export_labels_as_df_asset_without_labels_witness :
  (FakeAssets.export_labels_as_df
     [FakeAssets.car_1; FakeAssets.car_3; FakeAssets.car_2] Fake.s0).1
  = Py.Raise (Py.KeyError "labels").
Proof.
  apply (export_labels_as_df_asset_without_labels
           FakeAssets.services_get_project (fun _ => tt)
           (FakeAssets.AssetQuery [FakeAssets.car_1; FakeAssets.car_3; FakeAssets.car_2])
           id None 0%Z FakeAssets.iter_labels Fake.self "object_detection"
           QueriesLabelOther.export_labels_as_df_default_fields
           QueriesLabelOther.export_labels_as_df_default_asset_fields
           Fake.s0 Fake.s0 Fake.s0 [FakeAssets.car_1] [FakeAssets.car_2]
           FakeAssets.car_3
           [[ {[ "id" := "label-1" ]};
              {[ "id" := "label-2"; "asset_externalId" := "x" ]} ]]
           eq_refl eq_refl).
  - repeat constructor; eexists; split; reflexivity.
  - reflexivity.
Defined.

Lemma asset_columns_lookup {V} (asset : gmap string V) (k : string) :
  QueriesLabelOther.asset_columns asset !! ("asset_" +:+ k)
  = if decide (k = "labels") then None else asset !! k.
Proof.
  unfold QueriesLabelOther.asset_columns.
  rewrite (lookup_kmap (String.app "asset_")).
  destruct (decide (k = "labels")) as [->|Hk].
  - apply map_lookup_filter_None. right. intros v _ Hne. by apply Hne.
  - destruct (asset !! k) as [v|] eqn:Hv.
    + by apply map_lookup_filter_Some.
    + apply map_lookup_filter_None. by left.
Qed.

Lemma asset_columns_lookup_other {V} (asset : gmap string V) (j : string) :
  (forall k, j <> "asset_" +:+ k) ->
  QueriesLabelOther.asset_columns asset !! j = None.
Proof.
  intros Hj. unfold QueriesLabelOther.asset_columns.
  apply lookup_kmap_None; [apply _|]. intros k Hk. by destruct (Hj k).
Qed.

(** X6. The keys of a row [dict(label, **{f"asset_{key}": ...})]. For a key
    [k] of the asset other than [labels], the row has the asset's value under
    [asset_k], also when the label has a key of that name; the [labels]
    entry of the asset is not copied, so that [asset_labels] is what the
    label has under it; and under every key that is not [asset_] followed by
    something the row has what the label has. *)
Theorem export_labels_as_df_row_keys {V : Type} (label asset : gmap string V) :
  let row :=
    QueriesLabelOther.dict_with label (QueriesLabelOther.asset_columns asset) in
  (forall k, k <> "labels" ->
     row !! ("asset_" +:+ k)
     = match asset !! k with
       | Some v => Some v
       | None => label !! ("asset_" +:+ k)
       end)
  /\ row !! "asset_labels" = label !! "asset_labels"
  /\ (forall j, (forall k, j <> "asset_" +:+ k) -> row !! j = label !! j).
Proof.
  cbv zeta. unfold QueriesLabelOther.dict_with. repeat split.
  - intros k Hk. pose proof (asset_columns_lookup asset k) as Hcol.
    rewrite decide_False in Hcol by done.
    destruct (asset !! k) as [v|].
    + by apply lookup_union_Some_l.
    + by apply lookup_union_r.
  - apply lookup_union_r. change "asset_labels" with ("asset_" +:+ "labels").
    rewrite asset_columns_lookup. by rewrite decide_True.
  - intros j Hj. apply lookup_union_r. by apply asset_columns_lookup_other.
Qed.

(** ** [export_labels], the method and the command *)

Section export_labels_more_properties.

Context {W Client CocoAnnotationModifier AssetFilterKwargs : Type}.
Variable infer_ids_from_external_ids :
  @QueriesLabel.KiliAuth Client -> list string -> string -> Py.M W (gmap string string).
Variable services_export_labels :
  @QueriesLabel.KiliAuth Client ->
  @QueriesLabel.ExportKwargs CocoAnnotationModifier AssetFilterKwargs -> Py.M W unit.

(** X7. Apart from [NoCompatibleJobError], the method adds nothing to what
    the export service does: when the service returns, or raises any other
    exception, [export_labels] returns or raises the same in the same state,
    and prints nothing of its own. *)
Theorem export_labels_adds_nothing_to_the_service
    (self : QueriesLabel.self_t) (project_id filename : string) (fmt : LabelFormat)
    (asset_ids : option (list string)) (layout : SplitOption)
    (single_file disable_tqdm with_assets : bool) (external_ids : option (list string))
    (annotation_modifier : option CocoAnnotationModifier)
    (asset_filter_kwargs : option AssetFilterKwargs) (s s1 s2 : Py.state W)
    (resolved : option (list string)) (r : Py.result unit) :
  QueriesLabel.resolve_asset_ids infer_ids_from_external_ids self project_id asset_ids
    external_ids s = (Py.Return resolved, s1) ->
  services_export_labels (QueriesLabel.auth self) {|
      QueriesLabel.kw_asset_ids := resolved;
      QueriesLabel.kw_project_id := project_id;
      QueriesLabel.kw_export_type := "latest";
      QueriesLabel.kw_label_format := fmt;
      QueriesLabel.kw_split_option := layout;
      QueriesLabel.kw_single_file := single_file;
      QueriesLabel.kw_output_file := filename;
      QueriesLabel.kw_disable_tqdm := disable_tqdm;
      QueriesLabel.kw_log_level := "WARNING";
      QueriesLabel.kw_with_assets := with_assets;
      QueriesLabel.kw_annotation_modifier := annotation_modifier;
      QueriesLabel.kw_asset_filter_kwargs := asset_filter_kwargs;
    |} s1 = (r, s2) ->
  (forall msg, r <> Py.Raise (Py.NoCompatibleJobError msg)) ->
  QueriesLabel.export_labels infer_ids_from_external_ids services_export_labels
    self project_id filename fmt asset_ids layout single_file disable_tqdm
    with_assets external_ids annotation_modifier asset_filter_kwargs s
  = (r, s2).
Proof.
  intros Hids Hservice Hr. unfold QueriesLabel.export_labels.
  erewrite bind_Return by exact Hids. destruct r as [[]|e].
  - by erewrite try_except_Return.
  - erewrite try_except_uncaught; [reflexivity|exact Hservice|].
    destruct e; try reflexivity. by destruct (Hr msg).
Qed.

(** X8. The [try] of the method covers the call of the export service only:
    an exception of [infer_ids_from_external_ids], also a
    [NoCompatibleJobError], leaves [export_labels] as it is, nothing is
    printed and the service is not called. *)
Theorem export_labels_does_not_catch_the_id_inference
    (self : QueriesLabel.self_t) (project_id filename : string) (fmt : LabelFormat)
    (layout : SplitOption) (single_file disable_tqdm with_assets : bool)
    (external_ids : list string)
    (annotation_modifier : option CocoAnnotationModifier)
    (asset_filter_kwargs : option AssetFilterKwargs) (s s1 : Py.state W) (e : Py.exn) :
  infer_ids_from_external_ids (QueriesLabel.auth self) external_ids project_id s
    = (Py.Raise e, s1) ->
  QueriesLabel.export_labels infer_ids_from_external_ids services_export_labels
    self project_id filename fmt None layout single_file disable_tqdm
    with_assets (Some external_ids) annotation_modifier asset_filter_kwargs s
  = (Py.Raise e, s1).
Proof.
  intros Hinfer. unfold QueriesLabel.export_labels.
  erewrite bind_Raise; [reflexivity|].
  unfold QueriesLabel.resolve_asset_ids. by erewrite bind_Raise.
Qed.

(** X9. With [asset_ids=None] and [external_ids=[]], the ids are still
    inferred, and the export service is called with [asset_ids=[]], not with
    [None], whatever the inferred map is. *)
Theorem export_labels_of_no_external_id
    (self : QueriesLabel.self_t) (project_id filename : string) (fmt : LabelFormat)
    (layout : SplitOption) (single_file disable_tqdm with_assets : bool)
    (annotation_modifier : option CocoAnnotationModifier)
    (asset_filter_kwargs : option AssetFilterKwargs) (s s1 : Py.state W)
    (id_map : gmap string string) :
  infer_ids_from_external_ids (QueriesLabel.auth self) [] project_id s
    = (Py.Return id_map, s1) ->
  QueriesLabel.export_labels infer_ids_from_external_ids services_export_labels
    self project_id filename fmt None layout single_file disable_tqdm
    with_assets (Some []) annotation_modifier asset_filter_kwargs s
  = Py.try_except
      (services_export_labels (QueriesLabel.auth self) {|
         QueriesLabel.kw_asset_ids := Some [];
         QueriesLabel.kw_project_id := project_id;
         QueriesLabel.kw_export_type := "latest";
         QueriesLabel.kw_label_format := fmt;
         QueriesLabel.kw_split_option := layout;
         QueriesLabel.kw_single_file := single_file;
         QueriesLabel.kw_output_file := filename;
         QueriesLabel.kw_disable_tqdm := disable_tqdm;
         QueriesLabel.kw_log_level := "WARNING";
         QueriesLabel.kw_with_assets := with_assets;
         QueriesLabel.kw_annotation_modifier := annotation_modifier;
         QueriesLabel.kw_asset_filter_kwargs := asset_filter_kwargs;
       |})
      QueriesLabel.except_NoCompatibleJobError s1.
Proof.
  intros Hinfer. unfold QueriesLabel.export_labels.
  erewrite bind_Return; [reflexivity|].
  unfold QueriesLabel.resolve_asset_ids.
  erewrite bind_Return by exact Hinfer. reflexivity.
Qed.

End export_labels_more_properties.

(** A service that prints and then fails for another reason: the method
    fails in the same way, with what the service printed. *)
Lemma export_labels_adds_nothing_to_the_service_witness :
  QueriesLabel.export_labels Fake.infer_ids_from_external_ids
    FakeExport.services_export_labels_denied Fake.self "object_detection" "export.zip"
    coco (Some ["clb0car1"]) split true true true (Some ["car_2"]) None None Fake.s0
  = (Py.Raise (Py.OtherException "PermissionError" "denied"),
     Py.State ["Fetching assets..."] tt).
Proof.
  apply (export_labels_adds_nothing_to_the_service
           Fake.infer_ids_from_external_ids FakeExport.services_export_labels_denied
           Fake.self "object_detection" "export.zip" coco (Some ["clb0car1"]) split
           true true true (Some ["car_2"]) None None Fake.s0 Fake.s0
           (Py.State ["Fetching assets..."] tt) (Some ["clb0car1"])
           (Py.Raise (Py.OtherException "PermissionError" "denied")) eq_refl eq_refl).
  intros msg H. discriminate H.
Defined.

(** The inference raises a [NoCompatibleJobError]: it is not caught. *)
Lemma export_labels_does_not_catch_the_id_inference_witness :
  QueriesLabel.export_labels FakeExport.infer_ids_fails
    Fake.services_export_labels_echo Fake.self "object_detection" "export.zip"
    yolo_v4 None split false true true (Some ["car_1"]) None None Fake.s0
  = (Py.Raise (Py.NoCompatibleJobError "raised while inferring the ids"), Fake.s0).
Proof.
  apply (export_labels_does_not_catch_the_id_inference
           FakeExport.infer_ids_fails Fake.services_export_labels_echo Fake.self
           "object_detection" "export.zip" yolo_v4 split false true true ["car_1"]
           None None Fake.s0 Fake.s0 _ eq_refl).
Defined.

(** No external id: the service that prints its asset ids prints nothing,
    having been given the empty list. *)
Lemma export_labels_of_no_external_id_witness :
  QueriesLabel.export_labels Fake.infer_ids_from_external_ids
    Fake.services_export_labels_echo Fake.self "object_detection" "export.zip"
    yolo_v4 None split false true true (Some []) None None Fake.s0
  = (Py.Return tt, Fake.s0).
Proof.
  rewrite (export_labels_of_no_external_id
             Fake.infer_ids_from_external_ids Fake.services_export_labels_echo
             Fake.self "object_detection" "export.zip" yolo_v4 split false true true
             None None Fake.s0 Fake.s0 Fake.id_map eq_refl).
  reflexivity.
Defined.

(** An external id that has no image. *)
Lemma export_labels_unknown_external_id_witness :
  QueriesLabel.export_labels Fake.infer_ids_from_external_ids
    Fake.services_export_labels_echo Fake.self "object_detection" "export.zip"
    yolo_v4 None split false true true (Some ["car_1"; "car_9"; "car_2"]) None None
    Fake.s0
  = (Py.Raise (Py.KeyError "car_9"), Fake.s0).
Proof.
  apply (export_labels_unknown_external_id
           Fake.infer_ids_from_external_ids Fake.services_export_labels_echo Fake.self
           "object_detection" "export.zip" yolo_v4 split false true true None None
           Fake.s0 Fake.s0 Fake.id_map ["car_1"] ["clb0car1"] ["car_2"] "car_9" eq_refl).
  - repeat constructor.
  - reflexivity.
Defined.

(** X11. The command adds nothing to what its collaborators do, apart from
    [NoCompatibleJobError] of the export service: an exception of
    [get_kili_client] leaves the command and the service is not called; when
    the service returns, or raises any other exception, the command returns
    or raises the same in the same state. *)
Theorem cli_export_labels_adds_nothing_to_the_service {W Kili : Type}
    (get_kili_client : option string -> option string -> Py.M W Kili)
    (services_export_labels : Kili -> Cli.ExportKwargs -> Py.M W unit)
    (output_format : LabelFormat) (output_file : string) (layout : SplitOption)
    (api_key endpoint : option string) (project_id : string) (verbose : bool)
    (s : Py.state W) :
  let run :=
    Cli.export_labels get_kili_client services_export_labels output_format
      output_file layout api_key endpoint project_id verbose s in
  (forall e s1, get_kili_client api_key endpoint s = (Py.Raise e, s1) ->
     run = (Py.Raise e, s1))
  /\ (forall kili s1 r s2,
        get_kili_client api_key endpoint s = (Py.Return kili, s1) ->
        services_export_labels kili {|
            Cli.kw_asset_ids := None;
            Cli.kw_project_id := project_id;
            Cli.kw_export_type := "latest";
            Cli.kw_label_format := output_format;
            Cli.kw_split_option := layout;
            Cli.kw_output_file := output_file;
            Cli.kw_disable_tqdm := negb verbose;
            Cli.kw_log_level := if verbose then "INFO" else "WARNING";
          |} s1 = (r, s2) ->
        (forall msg, r <> Py.Raise (Py.NoCompatibleJobError msg)) ->
        run = (r, s2)).
Proof.
  cbv zeta. unfold Cli.export_labels. split.
  - intros e s1 Hclient. by erewrite bind_Raise.
  - intros kili s1 r s2 Hclient Hservice Hr.
    erewrite bind_Return by exact Hclient. destruct r as [[]|e].
    + by erewrite try_except_Return.
    + erewrite try_except_uncaught; [reflexivity|exact Hservice|].
      destruct e; try reflexivity. by destruct (Hr msg).
Qed.

Lemma cli_export_labels_adds_nothing_to_the_service_witness :
  Cli.export_labels Fake.get_kili_client FakeExport.cli_services_export_labels_denied
    coco "export.zip" merged None None "object_detection" true Fake.s0
  = (Py.Raise (Py.OtherException "PermissionError" "denied"),
     Py.State ["Fetching assets..."] tt).
Proof.
  apply (proj2 (cli_export_labels_adds_nothing_to_the_service
                  Fake.get_kili_client FakeExport.cli_services_export_labels_denied
                  coco "export.zip" merged None None "object_detection" true Fake.s0)
           tt Fake.s0 (Py.Raise (Py.OtherException "PermissionError" "denied"))
           (Py.State ["Fetching assets..."] tt) eq_refl eq_refl).
  intros msg H. discriminate H.
Defined.

(** ** [get_file_tree] *)

Lemma split_nonempty (sep : ascii) (s : string) : Py.split sep s <> [].
Proof.
  destruct s as [|c s]; cbn; [discriminate|].
  destruct (Py.split sep s); [discriminate|]. by destruct (Ascii.eqb c sep).
Qed.

(** [(p + "/").split("/")] is [p.split("/")] with an empty piece after it. *)
Lemma split_trailing_slash (p : string) :
  Py.split "/" (p +:+ "/") = Py.split "/" p ++ [""].
Proof.
  induction p as [|c p IH]; [reflexivity|].
  change (String c p +:+ "/") with (String c (p +:+ "/")). cbn [Py.split].
  rewrite IH. destruct (Py.split "/" p) as [|w ws] eqn:Hsplit.
  - by destruct (split_nonempty "/" p).
  - cbn. by destruct (Ascii.eqb c "/").
Qed.

(** The loop skips the empty pieces. *)
Lemma setdefault_path_components (xs : list string) (t : TestExport.tree) :
  TestExport.setdefault_path xs t
  = TestExport.setdefault_path (filter (fun x => x <> "") xs) t.
Proof.
  revert t. induction xs as [|x xs IH]; intros t; [reflexivity|].
  cbn [TestExport.setdefault_path]. rewrite filter_cons.
  destruct (decide (x = "")) as [->|Hx].
  - rewrite decide_False by (intros H; by apply H). apply IH.
  - rewrite decide_True by done. cbn [TestExport.setdefault_path].
    rewrite decide_False by done. by rewrite IH.
Qed.

Lemma setdefault_path_cons (x : string) (xs : list string) (t : TestExport.tree) :
  x <> "" ->
  TestExport.setdefault_path (x :: xs) t
  = TestExport.Node
      (<[x := TestExport.setdefault_path xs
                (default (TestExport.Node ∅) (TestExport.children t !! x))]>
         (TestExport.children t)).
Proof. intros Hx. cbn. by rewrite decide_False. Qed.

(** Two paths can be walked in either order. *)
Lemma setdefault_path_comm_components (xs ys : list string) (t : TestExport.tree) :
  Forall (fun x => x <> "") xs -> Forall (fun y => y <> "") ys ->
  TestExport.setdefault_path xs (TestExport.setdefault_path ys t)
  = TestExport.setdefault_path ys (TestExport.setdefault_path xs t).
Proof.
  intros Hxs. revert ys t.
  induction Hxs as [|x xs Hx _ IH]; intros ys t Hys; [reflexivity|].
  destruct Hys as [|y ys Hy Hys]; [reflexivity|].
  rewrite (setdefault_path_cons y ys t), (setdefault_path_cons x xs t) by done.
  rewrite !setdefault_path_cons by done. cbn [TestExport.children]. f_equal.
  destruct (decide (x = y)) as [->|Hxy].
  - rewrite !lookup_insert_eq, !insert_insert_eq. cbn. f_equal.
    apply IH. exact Hys.
  - rewrite !lookup_insert_ne by done. by apply insert_insert_ne.
Qed.

Lemma setdefault_path_comm (xs ys : list string) (t : TestExport.tree) :
  TestExport.setdefault_path xs (TestExport.setdefault_path ys t)
  = TestExport.setdefault_path ys (TestExport.setdefault_path xs t).
Proof.
  rewrite (setdefault_path_components ys t), (setdefault_path_components xs t).
  rewrite (setdefault_path_components xs (TestExport.setdefault_path _ t)).
  rewrite (setdefault_path_components ys (TestExport.setdefault_path _ t)).
  apply setdefault_path_comm_components; apply Forall_forall; intros z Hz;
    by apply list_elem_of_filter in Hz as [? _].
Qed.

Lemma foldl_setdefault_path_permutation (l1 l2 : list string) :
  l1 ≡ₚ l2 ->
  forall t,
    foldl (fun dct f_p => TestExport.setdefault_path (Py.split "/" f_p) dct) t l1
    = foldl (fun dct f_p => TestExport.setdefault_path (Py.split "/" f_p) dct) t l2.
Proof.
  induction 1 as [|p l1 l2 _ IH|p q l|l1 l2 l3 _ IH1 _ IH2]; intros t; cbn.
  - reflexivity.
  - apply IH.
  - by rewrite setdefault_path_comm.
  - by rewrite IH1.
Qed.

(** X12. The tree does not depend on the order in which [glob] lists the
    paths: two listings with the same paths, each as often, give the same
    tree. *)
Theorem get_file_tree_does_not_depend_on_the_order (filepaths1 filepaths2 : list string) :
  filepaths1 ≡ₚ filepaths2 ->
  TestExport.get_file_tree filepaths1 = TestExport.get_file_tree filepaths2.
Proof.
  intros H. unfold TestExport.get_file_tree.
  by apply foldl_setdefault_path_permutation.
Qed.

Lemma get_file_tree_does_not_depend_on_the_order_witness :
  TestExport.get_file_tree ["README.kili.txt"; "JOB_0/labels.json"; "JOB_0"]
  = TestExport.get_file_tree ["JOB_0"; "README.kili.txt"; "JOB_0/labels.json"].
Proof.
  apply get_file_tree_does_not_depend_on_the_order.
  apply (Permutation_app_comm ["README.kili.txt"; "JOB_0/labels.json"] ["JOB_0"]).
Defined.

(** Walking a path that is there changes nothing. *)
Lemma setdefault_path_present (xs : list string) (t : TestExport.tree) :
  Forall (fun x => x <> "") xs -> is_Some (lookup_path t xs) ->
  TestExport.setdefault_path xs t = t.
Proof.
  intros Hxs. revert t. induction Hxs as [|x xs Hx _ IH]; intros t Ht; [reflexivity|].
  rewrite setdefault_path_cons by done. cbn in Ht.
  destruct t as [m]. cbn in *. destruct (m !! x) as [child|] eqn:Hchild.
  - cbn. rewrite IH by done. f_equal. by apply insert_id.
  - by destruct Ht.
Qed.

(** Walking a path keeps what is there. *)
Lemma setdefault_path_keeps (xs ys : list string) (t : TestExport.tree) :
  Forall (fun x => x <> "") xs -> is_Some (lookup_path t ys) ->
  is_Some (lookup_path (TestExport.setdefault_path xs t) ys).
Proof.
  intros Hxs. revert t ys.
  induction Hxs as [|x xs Hx _ IH]; intros t ys Ht; [exact Ht|].
  rewrite setdefault_path_cons by done. destruct ys as [|y ys]; [by eexists|].
  cbn in Ht |- *. destruct (decide (x = y)) as [->|Hxy].
  - rewrite lookup_insert_eq. destruct (TestExport.children t !! y) as [child|].
    + cbn. by apply IH.
    + by destruct Ht.
  - by rewrite lookup_insert_ne.
Qed.

(** After the walk the path is there, and so is each of its prefixes. *)
Lemma setdefault_path_lookup (xs : list string) (n : nat) (t : TestExport.tree) :
  Forall (fun x => x <> "") xs ->
  is_Some (lookup_path (TestExport.setdefault_path xs t) (take n xs)).
Proof.
  intros Hxs. revert t n.
  induction Hxs as [|x xs Hx _ IH]; intros t n.
  - rewrite take_nil. by eexists.
  - rewrite setdefault_path_cons by done. destruct n as [|n]; [by eexists|].
    cbn. rewrite lookup_insert_eq. apply IH.
Qed.

Lemma components_nonempty (f_p : string) : Forall (fun x => x <> "") (components f_p).
Proof.
  apply Forall_forall. intros x Hx. by apply list_elem_of_filter in Hx as [? _].
Qed.

Lemma foldl_setdefault_path_keeps (l : list string) (ys : list string)
    (t : TestExport.tree) :
  is_Some (lookup_path t ys) ->
  is_Some
    (lookup_path
       (foldl (fun dct f_p => TestExport.setdefault_path (Py.split "/" f_p) dct) t l)
       ys).
Proof.
  revert t. induction l as [|p l IH]; intros t Ht; [exact Ht|].
  cbn. apply IH. rewrite setdefault_path_components.
  apply setdefault_path_keeps; [apply components_nonempty|exact Ht].
Qed.

Lemma foldl_setdefault_path_lookup (filepaths : list string) (f_p : string) (k : nat)
    (t : TestExport.tree) :
  f_p ∈ filepaths ->
  is_Some
    (lookup_path
       (foldl (fun dct f_p => TestExport.setdefault_path (Py.split "/" f_p) dct) t
          filepaths)
       (take k (components f_p))).
Proof.
  revert t. induction filepaths as [|p l IH]; intros t Hin;
    [by apply elem_of_nil in Hin|].
  apply elem_of_cons in Hin as [->|Hin]; cbn.
  - apply foldl_setdefault_path_keeps. rewrite setdefault_path_components.
    apply setdefault_path_lookup, components_nonempty.
  - by apply IH.
Qed.

(** X13. Every path of the listing can be read back from the tree, and so
    can every directory above it: for a listed path with the components
    [x1 ... xn] and every [k], [tree[x1]...[xk]] is there. *)
Theorem get_file_tree_has_every_listed_path
    (filepaths : list string) (f_p : string) (k : nat) :
  f_p ∈ filepaths ->
  is_Some (lookup_path (TestExport.get_file_tree filepaths) (take k (components f_p))).
Proof.
  intros Hin. unfold TestExport.get_file_tree.
  by apply foldl_setdefault_path_lookup.
Qed.

Lemma get_file_tree_has_every_listed_path_witness :
  is_Some
    (lookup_path
       (TestExport.get_file_tree ["README.kili.txt"; "JOB_0/labels/car_1.txt"])
       ["JOB_0"; "labels"]).
Proof.
  apply (get_file_tree_has_every_listed_path
           ["README.kili.txt"; "JOB_0/labels/car_1.txt"] "JOB_0/labels/car_1.txt" 2).
  apply list_elem_of_In. vm_compute. auto.
Defined.

(** X14. Listing a path again, or a directory above a listed path, changes
    nothing: when the components of [q] begin the components of a path of the
    listing, the tree is the same with [q] listed anywhere as without it. *)
Theorem get_file_tree_listing_a_parent_changes_nothing
    (before after : list string) (f_p q : string) :
  f_p ∈ before ++ after ->
  components q `prefix_of` components f_p ->
  TestExport.get_file_tree (before ++ q :: after)
  = TestExport.get_file_tree (before ++ after).
Proof.
  intros Hin [rest Hprefix]. unfold TestExport.get_file_tree.
  rewrite (foldl_setdefault_path_permutation (before ++ q :: after)
             ((before ++ after) ++ [q])).
  2: { rewrite <- (assoc_L (++)). apply Permutation_app_head.
       apply (Permutation_cons_append after q). }
  rewrite foldl_app. cbn.
  rewrite setdefault_path_components.
  apply setdefault_path_present; [apply components_nonempty|].
  fold (components q).
  pose proof (foldl_setdefault_path_lookup (before ++ after) f_p
                (length (components q)) (TestExport.Node ∅) Hin) as H.
  by rewrite Hprefix, take_app_length in H.
Qed.

Lemma get_file_tree_listing_a_parent_changes_nothing_witness :
  TestExport.get_file_tree ["README.kili.txt"; "JOB_0/labels/"; "JOB_0/labels/car_1.txt"]
  = TestExport.get_file_tree ["README.kili.txt"; "JOB_0/labels/car_1.txt"].
Proof.
  apply (get_file_tree_listing_a_parent_changes_nothing
           ["README.kili.txt"] ["JOB_0/labels/car_1.txt"] "JOB_0/labels/car_1.txt"
           "JOB_0/labels/").
  - apply list_elem_of_In. vm_compute. auto.
  - exists ["car_1.txt"]. reflexivity.
Defined.

(** X15. The tree cannot tell a file from an empty directory: with a slash
    put after every path of the listing, as for directory entries, the tree
    is the same. *)
Theorem get_file_tree_ignores_a_trailing_slash (filepaths : list string) :
  TestExport.get_file_tree ((fun f_p => f_p +:+ "/") <$> filepaths)
  = TestExport.get_file_tree filepaths.
Proof.
  unfold TestExport.get_file_tree. generalize (TestExport.Node ∅).
  induction filepaths as [|p l IH]; intros t; [reflexivity|].
  cbn. rewrite IH. f_equal.
  rewrite (setdefault_path_components (Py.split "/" (p +:+ "/"))).
  rewrite (setdefault_path_components (Py.split "/" p)).
  rewrite split_trailing_slash, filter_app. cbn. by rewrite app_nil_r.
Qed.

(** ** [remove_member] *)

(** X16. The dictionary of the existing members has, for an email, the role
    id of the last activated member of the project with that email; an email
    of members that are not activated only, or of no member, is not in it. *)
Theorem existing_members_dict_lookup
    (existing_members : list CliMemberRemove.ProjectUser) (email : string) :
  CliMemberRemove.existing_members_dict existing_members !! email
  = CliMemberRemove.id
      <$> last (filter
                  (fun member =>
                     CliMemberRemove.activated member = true
                     /\ CliMemberRemove.user_email member = email)
                  existing_members).
Proof.
  unfold CliMemberRemove.existing_members_dict.
  induction existing_members as [|member l IH] using rev_ind; [reflexivity|].
  rewrite foldl_app, filter_app. cbn [foldl]. rewrite filter_cons, filter_nil.
  destruct (CliMemberRemove.activated member) eqn:Hactive.
  - destruct (decide (CliMemberRemove.user_email member = email)) as [<-|Hne].
    + rewrite lookup_insert_eq, decide_True by done. by rewrite last_snoc.
    + rewrite lookup_insert_ne by done.
      rewrite decide_False by (intros [_ ?]; done). by rewrite app_nil_r.
  - rewrite decide_False by (intros [? _]; done). by rewrite app_nil_r.
Qed.

Section remove_member_properties.

Context {W Kili : Type}.
Variable Kili_new : option string -> option string -> Py.M W Kili.
Variable check_exclusive_options :
  option string -> option string -> list string -> bool -> Py.M W unit.
Variable collect_members_from_csv :
  string -> option string -> Py.M W (list (gmap string string)).
Variable collect_members_from_project :
  Kili -> string -> option string -> Py.M W (list (gmap string string)).
Variable collect_members_from_emails :
  list string -> option string -> Py.M W (list (gmap string string)).
Variable project_users :
  Kili -> string -> bool -> Py.M W (list CliMemberRemove.ProjectUser).
Variable delete_from_roles : Kili -> string -> Py.M W unit.
Variable warnings_warn : string -> Py.M W unit.

(** What deleting a role and warning do to the world; they return, and print
    nothing. *)
Variable on_delete on_warn : string -> W -> W.
Hypothesis delete_from_roles_returns : forall kili role_id s,
  delete_from_roles kili role_id s
  = (Py.Return tt, Py.State (Py.stdout s) (on_delete role_id (Py.world s))).
Hypothesis warnings_warn_returns : forall message s,
  warnings_warn message s
  = (Py.Return tt, Py.State (Py.stdout s) (on_warn message (Py.world s))).

Abbreviation remove_loop :=
  (CliMemberRemove.remove_loop delete_from_roles warnings_warn).
Abbreviation remove_member :=
  (CliMemberRemove.remove_member Kili_new check_exclusive_options
     collect_members_from_csv collect_members_from_project
     collect_members_from_emails project_users delete_from_roles warnings_warn).

Lemma remove_loop_returns (kili : Kili) (existing_members : gmap string string)
    (members : list (gmap string string)) (emails : list string) :
  Forall2 (fun member email => member !! "email" = Some email) members emails ->
  forall (count : nat) (s : Py.state W),
  remove_loop kili existing_members members count s
  = (Py.Return (count + length (active_emails existing_members emails)),
     Py.State (Py.stdout s)
       (foldl (removal_effect on_delete on_warn existing_members) (Py.world s) emails)).
Proof.
  induction 1 as [|member email members emails Hemail _ IH]; intros count s.
  - cbn. rewrite Nat.add_0_r. by destruct s.
  - cbn [CliMemberRemove.remove_loop foldl].
    erewrite bind_Return;
      [|unfold CliMemberRemove.getitem_email; by rewrite Hemail].
    unfold active_emails. rewrite filter_cons. unfold removal_effect at 2.
    destruct (existing_members !! email) as [role_id|] eqn:Hrole.
    + erewrite bind_Return by apply delete_from_roles_returns.
      rewrite IH. rewrite decide_True by by eexists. cbn.
      unfold active_emails. do 2 f_equal. lia.
    + erewrite bind_Return by apply warnings_warn_returns.
      rewrite IH. rewrite decide_False by (by intros [? ?]). reflexivity.
Qed.

Lemma remove_loop_missing_email (kili : Kili) (existing_members : gmap string string)
    (before after : list (gmap string string)) (member : gmap string string)
    (emails : list string) :
  Forall2 (fun member email => member !! "email" = Some email) before emails ->
  member !! "email" = None ->
  forall (count : nat) (s : Py.state W),
  remove_loop kili existing_members (before ++ member :: after) count s
  = (Py.Raise (Py.KeyError "email"),
     Py.State (Py.stdout s)
       (foldl (removal_effect on_delete on_warn existing_members) (Py.world s) emails)).
Proof.
  intros Hbefore Hmember.
  induction Hbefore as [|m email before emails Hemail _ IH]; intros count s.
  - cbn. erewrite bind_Raise; [by destruct s|].
    unfold CliMemberRemove.getitem_email. by rewrite Hmember.
  - cbn [app CliMemberRemove.remove_loop foldl].
    erewrite bind_Return;
      [|unfold CliMemberRemove.getitem_email; by rewrite Hemail].
    unfold removal_effect at 2.
    destruct (existing_members !! email) as [role_id|] eqn:Hrole.
    + erewrite bind_Return by apply delete_from_roles_returns. by rewrite IH.
    + erewrite bind_Return by apply warnings_warn_returns. by rewrite IH.
Qed.

(** X17. The command, when its collaborators return. For the members to
    remove, in order and as often as they are listed: a member whose email is
    that of an activated member of the project has that member's role
    deleted, any other is warned about; nothing else is done to the world.
    The one line printed at the end counts the roles deleted, which are at
    most as many as the members to remove. *)
Theorem remove_member_deletes_the_active_members
    (api_key endpoint : option string) (emails_given : list string)
    (project_id : string) (csv_path : option string) (all_members : bool)
    (s s1 s2 s3 s4 : Py.state W) (kili : Kili)
    (members : list (gmap string string)) (emails : list string)
    (users : list CliMemberRemove.ProjectUser) :
  Kili_new api_key endpoint s = (Py.Return kili, s1) ->
  check_exclusive_options csv_path None emails_given all_members s1
    = (Py.Return tt, s2) ->
  match csv_path with
  | Some csv_path => collect_members_from_csv csv_path None
  | None =>
      if all_members then collect_members_from_project kili project_id None
      else collect_members_from_emails emails_given None
  end s2 = (Py.Return members, s3) ->
  project_users kili project_id true s3 = (Py.Return users, s4) ->
  Forall2 (fun member email => member !! "email" = Some email) members emails ->
  let existing := CliMemberRemove.existing_members_dict users in
  let removed := length (active_emails existing emails) in
  remove_member api_key endpoint emails_given project_id csv_path all_members s
  = (Py.Return tt,
     Py.State (Py.stdout s4 ++ [CliMemberRemove.removed_message removed project_id])
       (foldl (removal_effect on_delete on_warn existing) (Py.world s4) emails))
  /\ removed <= length members.
Proof.
  intros Hkili Hcheck Hcollect Husers Hemails existing removed. split.
  - unfold CliMemberRemove.remove_member.
    erewrite bind_Return by exact Hkili.
    erewrite bind_Return by exact Hcheck.
    erewrite bind_Return by exact Hcollect.
    erewrite bind_Return by exact Husers.
    erewrite bind_Return by (by apply remove_loop_returns).
    reflexivity.
  - subst removed. unfold active_emails.
    rewrite (Forall2_length _ _ _ Hemails). apply length_filter.
Qed.

(** X18. A member to remove that has no [email]: the command raises
    [KeyError: 'email'] there. The members before it have been dealt with,
    their roles deleted, and no line is printed. *)
Theorem remove_member_stops_at_a_member_without_email
    (api_key endpoint : option string) (emails_given : list string)
    (project_id : string) (csv_path : option string) (all_members : bool)
    (s s1 s2 s3 s4 : Py.state W) (kili : Kili)
    (before after : list (gmap string string)) (member : gmap string string)
    (emails : list string) (users : list CliMemberRemove.ProjectUser) :
  Kili_new api_key endpoint s = (Py.Return kili, s1) ->
  check_exclusive_options csv_path None emails_given all_members s1
    = (Py.Return tt, s2) ->
  match csv_path with
  | Some csv_path => collect_members_from_csv csv_path None
  | None =>
      if all_members then collect_members_from_project kili project_id None
      else collect_members_from_emails emails_given None
  end s2 = (Py.Return (before ++ member :: after), s3) ->
  project_users kili project_id true s3 = (Py.Return users, s4) ->
  Forall2 (fun member email => member !! "email" = Some email) before emails ->
  member !! "email" = None ->
  remove_member api_key endpoint emails_given project_id csv_path all_members s
  = (Py.Raise (Py.KeyError "email"),
     Py.State (Py.stdout s4)
       (foldl (removal_effect on_delete on_warn
                 (CliMemberRemove.existing_members_dict users))
          (Py.world s4) emails)).
Proof.
  intros Hkili Hcheck Hcollect Husers Hbefore Hmember.
  unfold CliMemberRemove.remove_member.
  erewrite bind_Return by exact Hkili.
  erewrite bind_Return by exact Hcheck.
  erewrite bind_Return by exact Hcollect.
  erewrite bind_Return by exact Husers.
  erewrite bind_Raise; [reflexivity|].
  by apply remove_loop_missing_email.
Qed.

End remove_member_properties.

(** Three emails given, one of them twice and one of a member that is not
    activated: two roles deleted, one warning, and the count of two. *)
Lemma remove_member_deletes_the_active_members_witness :
  CliMemberRemove.remove_member Recorder.Kili_new Recorder.check_exclusive_options
    Recorder.collect_members_from_csv Recorder.collect_members_from_project
    Recorder.collect_members_from_emails Recorder.project_users
    Recorder.delete_from_roles Recorder.warnings_warn None None
    ["ann.lee@test.com"; "jane.doe@test.com"; "ann.lee@test.com"] "project" None false
    Recorder.s0
  = (Py.Return tt,
     Py.State ["2 users have been successfully removed from project: project"]
       [Recorder.deleted_role "role-3";
        Recorder.warned "jane.doe@test.com is not an active member of the project.";
        Recorder.deleted_role "role-3"]).
Proof.
  exact (proj1 (remove_member_deletes_the_active_members
                  Recorder.Kili_new Recorder.check_exclusive_options
                  Recorder.collect_members_from_csv Recorder.collect_members_from_project
                  Recorder.collect_members_from_emails Recorder.project_users
                  Recorder.delete_from_roles Recorder.warnings_warn
                  (fun role_id w => w ++ [Recorder.deleted_role role_id])
                  (fun message w => w ++ [Recorder.warned message])
                  (fun _ _ _ => eq_refl) (fun _ _ => eq_refl)
                  None None ["ann.lee@test.com"; "jane.doe@test.com"; "ann.lee@test.com"]
                  "project" None false Recorder.s0 Recorder.s0 Recorder.s0 Recorder.s0
                  Recorder.s0 tt
                  [ {[ "email" := "ann.lee@test.com" ]};
                    {[ "email" := "jane.doe@test.com" ]};
                    {[ "email" := "ann.lee@test.com" ]} ]
                  ["ann.lee@test.com"; "jane.doe@test.com"; "ann.lee@test.com"]
                  Recorder.users eq_refl eq_refl eq_refl eq_refl
                  ltac:(repeat constructor))).
Defined.

(** The file whose second line has no email: the first member is removed,
    the third is not reached, nothing is printed. *)
Lemma remove_member_stops_at_a_member_without_email_witness :
  CliMemberRemove.remove_member Recorder.Kili_new Recorder.check_exclusive_options
    Recorder.collect_members_from_csv Recorder.collect_members_from_project
    Recorder.collect_members_from_emails Recorder.project_users
    Recorder.delete_from_roles Recorder.warnings_warn None None [] "project"
    (Some "members.csv") false Recorder.s0
  = (Py.Raise (Py.KeyError "email"),
     Py.State [] [Recorder.deleted_role "role-3"]).
Proof.
  exact (remove_member_stops_at_a_member_without_email
           Recorder.Kili_new Recorder.check_exclusive_options
           Recorder.collect_members_from_csv Recorder.collect_members_from_project
           Recorder.collect_members_from_emails Recorder.project_users
           Recorder.delete_from_roles Recorder.warnings_warn
           (fun role_id w => w ++ [Recorder.deleted_role role_id])
           (fun message w => w ++ [Recorder.warned message])
           (fun _ _ _ => eq_refl) (fun _ _ => eq_refl)
           None None [] "project" (Some "members.csv") false Recorder.s0 Recorder.s0
           Recorder.s0 Recorder.s0 Recorder.s0 tt
           [ {[ "email" := "ann.lee@test.com" ]} ] [ {[ "email" := "john.doe@test.com" ]} ]
           {[ "role" := "ADMIN" ]} ["ann.lee@test.com"] Recorder.users
           eq_refl eq_refl eq_refl eq_refl ltac:(repeat constructor) eq_refl).
Defined.
